(** * mooncalc: moon position, illumination and rise/set times

    A shallow embedding of [mooncalc.py] and the properties of it that the
    specification states.

    Conventions of the embedding.
    - A Python [float] is a real number ([R]); rounding, infinities and NaN
      are outside the model.  [math.sin], [math.cos], [math.tan],
      [math.sqrt] are the functions of the real-number library; [math.asin]
      and [math.acos] raise [ValueError] outside [-1, 1] as Python's do.
    - Where rounding decides a statement, the code is read a second time:
      in the module [Rounded] with a rounding operator after every float
      operation, and in the module [F64] on binary64 numbers themselves,
      for the arithmetic that needs no trigonometric function.
    - A Python exception is a value: every function that can raise returns
      [res A], and [x <- c ;; k] sequences two computations, the first
      exception ending the evaluation.
    - The local variables of [get_moon_times] start as the integer [0] and
      become floats later; [pynum] keeps the two apart because the
      operators [&] and truthiness depend on it.
    - [time.localtime], [time.mktime] and [time.timezone] belong to the
      host; they are the fields of a [clock] passed in explicitly. *)

From Stdlib Require Floats Uint63.
From Stdlib Require Import Reals Lra Lia ZArith List Bool.
Import ListNotations.

#[local] Set Warnings "-inexact-float".

Local Open Scope R_scope.

(** ** Python values, exceptions and operators *)

Inductive exn : Type :=
| ZeroDivisionError
| TypeError
| ValueError.

Inductive res (A : Type) : Type :=
| Ok (a : A)
| Raise (e : exn).

Arguments Ok {A} a.
Arguments Raise {A} e.

Definition bind {A B : Type} (c : res A) (k : A -> res B) : res B :=
  match c with
  | Ok a => k a
  | Raise e => Raise e
  end.

Notation "x <- c ;; k" := (bind c (fun x => k))
  (at level 61, c at next level, right associativity).

(** A number as Python holds it: an [int] or a [float]. *)
Inductive pynum : Type :=
| PyInt (n : Z)
| PyFloat (x : R).

(** [time.struct_time] read as the 9-tuple it is:
    (tm_year, tm_mon, tm_mday, tm_hour, tm_min, tm_sec, tm_wday, tm_yday,
    tm_isdst). *)
Definition struct_time : Type := list Z.

(** The objects the functions below return or compare. *)
Inductive pyobj : Type :=
| Num (v : pynum)
| StructTime (tm : struct_time).

(** [float(v)]. *)
Definition py_float (v : pynum) : R :=
  match v with
  | PyInt n => IZR n
  | PyFloat x => x
  end.

(** [bool(v)]: a number is true unless it is zero. *)
Definition truthy (v : pynum) : bool :=
  match v with
  | PyInt n => negb (n =? 0)%Z
  | PyFloat x => if Req_dec_T x 0 then false else true
  end.

(** [x / y] on floats: a zero divisor raises. *)
Definition py_div (x y : R) : res R :=
  if Req_dec_T y 0 then Raise ZeroDivisionError else Ok (x / y).

(** [v & w]: defined on two ints only; a float operand raises [TypeError]. *)
Definition py_bitand (v w : pynum) : res pynum :=
  match v, w with
  | PyInt m, PyInt n => Ok (PyInt (Z.land m n))
  | _, _ => Raise TypeError
  end.

Definition Rltb (x y : R) : bool := if Rlt_dec x y then true else false.
Definition Rleb (x y : R) : bool := if Rle_dec x y then true else false.

(** [v > 0] and [v <= 0]. *)
Definition py_gt0 (v : pynum) : bool := Rltb 0 (py_float v).
Definition py_le0 (v : pynum) : bool := Rleb (py_float v) 0.

(** [a == b] between objects: numbers compare by value, a [struct_time]
    equals only a tuple with the same items, never a number. *)
Definition py_eq (a b : pyobj) : bool :=
  match a, b with
  | Num v, Num w => if Req_dec_T (py_float v) (py_float w) then true else false
  | StructTime s, StructTime u => if list_eq_dec Z.eq_dec s u then true else false
  | _, _ => false
  end.

(** [math.asin] and [math.acos]: a [ValueError] outside [-1, 1]. *)
Definition py_asin (x : R) : res R :=
  if Rle_dec (Rabs x) 1 then Ok (asin x) else Raise ValueError.

Definition py_acos (x : R) : res R :=
  if Rle_dec (Rabs x) 1 then Ok (acos x) else Raise ValueError.

(** [math.atan2 y x] on the reals (there is no signed zero here): the angle
    of the point [(x, y)] in (-PI, PI], and 0 at the origin. *)
Definition atan2 (y x : R) : R :=
  if Rlt_dec 0 x then atan (y / x)
  else if Rlt_dec x 0 then
    if Rle_dec 0 y then atan (y / x) + PI else atan (y / x) - PI
  else if Rlt_dec 0 y then PI / 2
  else if Rlt_dec y 0 then - (PI / 2)
  else 0.

(** [l[lo:hi] = items]. *)
Definition slice_assign {A : Type} (l : list A) (lo hi : nat) (items : list A)
  : list A :=
  firstn lo l ++ items ++ skipn hi l.

(** The host's calendar: [time.timezone], [time.localtime], [time.mktime]. *)
Record clock : Type := Clock {
  timezone : Z;
  localtime : R -> struct_time;
  mktime : struct_time -> R
}.

(** ** Date and time constants and conversions *)

Definition RAD : R := PI / 180.

Definition DAYS_SEC : R := 60 * 60 * 24.

Definition J1970 : R := 2440588.
Definition J2000 : R := 2451545.

Definition to_julian (date : R) : R :=
  date / DAYS_SEC - 0.5 + J1970.

Definition from_julian (ck : clock) (j : R) : struct_time :=
  localtime ck ((j + 0.5 - J1970) * DAYS_SEC).

Definition to_days (date : R) : R :=
  to_julian date - J2000.

(** ** General calculations for position *)

(** Obliquity of the Earth. *)
Definition E : R := RAD * 23.4397.

Definition right_ascension (l b : R) : R :=
  atan2 (sin l * cos E - tan b * sin E) (cos l).

Definition declination (l b : R) : res R :=
  py_asin (sin b * cos E + cos b * sin E * sin l).

Definition azimuth (H phi dec : R) : R :=
  atan2 (sin H) (cos H * sin phi - tan dec * cos phi).

Definition altitude (H phi dec : R) : res R :=
  py_asin (sin phi * sin dec + cos phi * cos dec * cos H).

Definition sidereal_time (d lw : R) : R :=
  RAD * (280.16 + 360.9856235 * d) - lw.

(** The guard of [astro_refraction]: [if h < 0: h = 0]. *)
Definition clamp_altitude (h : R) : R :=
  if Rlt_dec h 0 then 0 else h.

(** The argument of [tan] in the refraction formula. *)
Definition refraction_angle (h : R) : R :=
  h + 0.00312536 / (h + 0.08901179).

(** Formula 16.4 of Meeus as the source evaluates it, with no guard. *)
Definition refraction_formula (h : R) : res R :=
  q <- py_div 0.00312536 (h + 0.08901179) ;;
  py_div 0.0002967 (tan (h + q)).

Definition astro_refraction (h : R) : res R :=
  refraction_formula (clamp_altitude h).

(** ** General sun calculations *)

Definition solar_mean_anomaly (d : R) : R :=
  RAD * (357.5291 + 0.98560028 * d).

Definition ecliptic_longitude (M : R) : R :=
  let C := RAD * (1.9148 * sin M + 0.02 * sin (2 * M) + 0.0003 * sin (3 * M)) in
  let P := RAD * 102.9372 in
  M + C + P + PI.

Record SunCoordsStruct : Type := mkSunCoords {
  sun_dec : R;
  sun_ra : R
}.

Definition sun_coords (d : R) : res SunCoordsStruct :=
  let M := solar_mean_anomaly d in
  let L := ecliptic_longitude M in
  dec <- declination L 0 ;;
  Ok (mkSunCoords dec (right_ascension L 0)).

(** ** Moon calculations *)

Record MoonCoordsStruct : Type := mkMoonCoords {
  ra : R;
  dec : R;
  dist : R
}.

Definition moon_coords (d : R) : res MoonCoordsStruct :=
  let L := RAD * (218.316 + 13.176396 * d) in
  let M := RAD * (134.963 + 13.064993 * d) in
  let F := RAD * (93.272 + 13.229350 * d) in
  let l := L + RAD * 6.289 * sin M in
  let b := RAD * 5.128 * sin F in
  let dt := 385001 - 20905 * cos M in
  let ra := right_ascension l b in
  dec <- declination l b ;;
  Ok (mkMoonCoords ra dec dt).

Record MoonPositionStruct : Type := mkMoonPosition {
  pos_azimuth : R;
  pos_altitude : R;
  distance : R;
  parallactic_angle : R
}.

Definition get_moon_position (date lat lng : R) : res MoonPositionStruct :=
  let lw := RAD * - lng in
  let phi := RAD * lat in
  let d := to_days date in
  c <- moon_coords d ;;
  let H := sidereal_time d lw - ra c in
  h <- altitude H phi (dec c) ;;
  let pa := atan2 (sin H) (tan phi * cos (dec c) - sin (dec c) * cos H) in
  r <- astro_refraction h ;;
  let h := h + r in
  Ok (mkMoonPosition (azimuth H phi (dec c)) h (dist c) pa).

(** ** Illumination of the moon *)

Record MoonIlluminationStruct : Type := mkMoonIllumination {
  fraction : R;
  phase : R;
  angle : R
}.

(** Distance from Earth to Sun in km. *)
Definition sdist : R := 149598000.

(** [-1 if angle < 0 else 1]. *)
Definition angle_sign (angle : R) : R :=
  if Rlt_dec angle 0 then -1 else 1.

Definition get_moon_illumination (date : R) : res MoonIlluminationStruct :=
  let d := to_days date in
  s <- sun_coords d ;;
  m <- moon_coords d ;;
  phi <- py_acos (sin (sun_dec s) * sin (dec m)
                  + cos (sun_dec s) * cos (dec m) * cos (sun_ra s - ra m)) ;;
  let inc := atan2 (sdist * sin phi) (dist m - sdist * cos phi) in
  let angle := atan2 (cos (sun_dec s) * sin (sun_ra s - ra m))
                     (sin (sun_dec s) * cos (dec m)
                      - cos (sun_dec s) * sin (dec m) * cos (sun_ra s - ra m)) in
  Ok (mkMoonIllumination
        ((1 + cos inc) / 2)
        (0.5 + 0.5 * inc * angle_sign angle / PI)
        angle).

Definition hours_later (date : R) (h : pynum) : R :=
  date + 60 * 60 * py_float h.

(** ** Moon rise and set times *)

Record MoonTimesStruct : Type := mkMoonTimes {
  rise : pynum;
  set : pynum;
  alwaysup : bool;
  alwaysdown : bool
}.

(** The locals of [get_moon_times] that one pass of the loop hands to the
    next and to the [return]: [h0], [rise], [set] and [ye].  The others
    ([h1], [h2], [a], [b], [xe], [d], [roots], [x1], [x2], [dx]) are
    assigned again before each use: [roots] is reset on every pass and
    [x1], [x2] are read only when [roots] is not 0, that is after the
    [d >= 0] branch of the same pass has set them. *)
Record scan_state : Type := mkScan {
  st_h0 : R;
  st_rise : pynum;
  st_set : pynum;
  st_ye : pynum
}.

(** [1 if abs(x) <= 1 else 0], the step of [roots += 1]. *)
Definition in_window (x : R) : nat :=
  if Rle_dec (Rabs x) 1 then 1%nat else 0%nat.

(** The fit of one window through (-1, h0), (0, h1), (1, h2). *)
Definition fit_a (h0 h1 h2 : R) : R := (h0 + h2) / 2 - h1.
Definition fit_b (h0 h2 : R) : R := (h2 - h0) / 2.
Definition fit_ye (a b xe h1 : R) : R := (a * xe + b) * xe + h1.
Definition fit_d (a b h1 : R) : R := b * b - 4 * a * h1.
Definition fit_dx (a d : R) : R := sqrt d / (Rabs a * 2).

(** The [if (d >= 0):] block: the number of roots inside the window and
    the two roots, [x1] already replaced by [x2] when it lies left of the
    window.  With [d < 0] no root is counted and [x1], [x2] are not read. *)
Definition find_roots (a xe d : R) : res (nat * R * R) :=
  if Rge_dec d 0 then
    dx <- py_div (sqrt d) (Rabs a * 2) ;;
    let x1 := xe - dx in
    let x2 := xe + dx in
    let roots := (in_window x1 + in_window x2)%nat in
    let x1 := if Rlt_dec x1 (-1) then x2 else x1 in
    Ok (roots, x1, x2)
  else Ok (0%nat, 0, 0).

(** The [if roots == 1: ... elif roots == 2: ...] block: the new [rise]
    and [set]. *)
Definition record_crossings (i : Z) (h0 ye : R) (roots : nat) (x1 x2 : R)
  (rise0 set0 : pynum) : pynum * pynum :=
  match roots with
  | 1%nat =>
      if Rlt_dec h0 0
      then (PyFloat (IZR i + x1), set0)
      else (rise0, PyFloat (IZR i + x1))
  | 2%nat =>
      (PyFloat (IZR i + (if Rlt_dec ye 0 then x2 else x1)),
       PyFloat (IZR i + (if Rlt_dec ye 0 then x1 else x2)))
  | _ => (rise0, set0)
  end.

(** The body of the loop after the two samples [h1], [h2] are taken: the
    updated [rise], [set] and the [ye] of this window. *)
Definition classify (i : Z) (h0 h1 h2 : R) (rise0 set0 : pynum)
  : res (pynum * pynum * R) :=
  let a := fit_a h0 h1 h2 in
  let b := fit_b h0 h2 in
  xe <- py_div (- b) (2 * a) ;;
  let ye := fit_ye a b xe h1 in
  let d := fit_d a b h1 in
  found <- find_roots a xe d ;;
  let '(roots, x1, x2) := found in
  let '(rise1, set1) := record_crossings i h0 ye roots x1 x2 rise0 set0 in
  Ok (rise1, set1, ye).

(** [[2*i + 1 for i in range(12)]]. *)
Definition scan_hours : list Z :=
  map (fun i => 2 * i + 1)%Z (map Z.of_nat (seq 0 12)).

(** The horizon correction [hc]. *)
Definition hc : R := 0.133 * RAD.

Section RiseSet.

(** The position calculator the solver samples ([get_moon_position] in
    the program) and the host's clock. *)
Variable position : R -> R -> R -> res MoonPositionStruct.
Variable ck : clock.

(** [t]: local midnight of the day of [date]. *)
Definition midnight (date : R) (inUTC : bool) : R :=
  let off := if inUTC then IZR (timezone ck) else 0 in
  let t := localtime ck (date + off) in
  let t := slice_assign t 3 6 [0; 0; 0]%Z in
  mktime ck t - off.

(** [get_moon_position(hours_later(t, i), lat, lng).altitude - hc]. *)
Definition sample (t lat lng : R) (i : Z) : res R :=
  p <- position (hours_later t (PyInt i)) lat lng ;;
  Ok (pos_altitude p - hc).

(** One pass of the loop; the boolean is [break]. *)
Definition window (t lat lng : R) (i : Z) (st : scan_state)
  : res (scan_state * bool) :=
  h1 <- sample t lat lng i ;;
  h2 <- sample t lat lng (i + 1) ;;
  r <- classify i (st_h0 st) h1 h2 (st_rise st) (st_set st) ;;
  let '(rise1, set1, ye) := r in
  if truthy rise1 && truthy set1
  then Ok (mkScan (st_h0 st) rise1 set1 (PyFloat ye), true)
  else Ok (mkScan h2 rise1 set1 (PyFloat ye), false).

Fixpoint scan (t lat lng : R) (hours : list Z) (st : scan_state)
  : res scan_state :=
  match hours with
  | [] => Ok st
  | i :: rest =>
      r <- window t lat lng i st ;;
      let '(st1, brk) := r in
      if brk then Ok st1 else scan t lat lng rest st1
  end.

(** The state at the [return]: [h0] sampled at midnight, every other
    local 0, then the twelve windows. *)
Definition scan_day (t lat lng : R) : res scan_state :=
  p <- position t lat lng ;;
  let h0 := pos_altitude p - hc in
  scan t lat lng scan_hours (mkScan h0 (PyInt 0) (PyInt 0) (PyInt 0)).

(** [hours_later(t, v) if v else -1]. *)
Definition time_or_absent (t : R) (v : pynum) : pynum :=
  if truthy v then PyFloat (hours_later t v) else PyInt (-1).

(** [not rise and not set & ye > 0], which Python reads as
    [(not rise) and (not ((set & ye) > 0))]. *)
Definition alwaysup_expr (st : scan_state) : res bool :=
  if negb (truthy (st_rise st))
  then v <- py_bitand (st_set st) (st_ye st) ;; Ok (negb (py_gt0 v))
  else Ok false.

(** [not rise and not set and ye <= 0]. *)
Definition alwaysdown_expr (st : scan_state) : bool :=
  negb (truthy (st_rise st)) && negb (truthy (st_set st))
  && py_le0 (st_ye st).

(** The [return] statement, its arguments evaluated left to right. *)
Definition moon_times_of (t : R) (st : scan_state) : res MoonTimesStruct :=
  let r := time_or_absent t (st_rise st) in
  let s := time_or_absent t (st_set st) in
  up <- alwaysup_expr st ;;
  Ok (mkMoonTimes r s up (alwaysdown_expr st)).

Definition get_moon_times (date lat lng : R) (inUTC : bool)
  : res MoonTimesStruct :=
  let t := midnight date inUTC in
  st <- scan_day t lat lng ;;
  moon_times_of t st.

End RiseSet.

(** ** Calculations for sun times *)

Definition J0 : R := 0.0009.

(** [round(x)] with one argument: the nearest integer, a tie going to the
    even neighbour. *)
Definition py_round (x : R) : Z :=
  let n := Int_part x in
  let f := x - IZR n in
  if Rlt_dec f (1 / 2) then n
  else if Rlt_dec (1 / 2) f then (n + 1)%Z
  else if Z.even n then n else (n + 1)%Z.

Definition julian_cycle (d lw : R) : Z :=
  py_round (d - J0 - lw / (2 * PI)).

Definition approx_transit (Ht lw n : R) : R :=
  J0 + (Ht + lw) / (2 * PI) + n.

Definition solar_transit (ds M L : R) : R :=
  J2000 + ds + 0.0053 * sin M - 0.0069 * sin (2 * L).

Definition hour_angle (h phi d : R) : res R :=
  q <- py_div (sin h - sin phi * sin d) (cos phi * cos d) ;;
  py_acos q.

(** ** A host and some skies to run the solver on

    [utc_clock] is the clock of a host whose zone is UTC: [time.timezone]
    is 0, [time.localtime] floors the seconds and splits them into the
    proleptic Gregorian calendar, [time.mktime] puts them together again.
    The skies are position calculators whose altitude is a polynomial in
    the hours since [t0], so that the windows of the solver can be
    evaluated exactly. *)

Module UtcHost.

Local Open Scope Z_scope.

(** Days since 1970-01-01 of the civil date [y]-[m]-[d]. *)
Definition days_from_civil (y m d : Z) : Z :=
  let y := if m <=? 2 then y - 1 else y in
  let era := y / 400 in
  let yoe := y - era * 400 in
  let doy := (153 * (if 2 <? m then m - 3 else m + 9) + 2) / 5 + d - 1 in
  let doe := yoe * 365 + yoe / 4 - yoe / 100 + doy in
  era * 146097 + doe - 719468.

(** The civil date (year, month, day) of a day count since 1970-01-01. *)
Definition civil_from_days (z : Z) : Z * Z * Z :=
  let z := z + 719468 in
  let era := z / 146097 in
  let doe := z - era * 146097 in
  let yoe := (doe - doe / 1460 + doe / 36524 - doe / 146096) / 365 in
  let doy := doe - (365 * yoe + yoe / 4 - yoe / 100) in
  let mp := (5 * doy + 2) / 153 in
  let d := doy - (153 * mp + 2) / 5 + 1 in
  let m := if mp <? 10 then mp + 3 else mp - 9 in
  (if m <=? 2 then yoe + era * 400 + 1 else yoe + era * 400, m, d).

Definition gmtime (secs : Z) : struct_time :=
  let days := secs / 86400 in
  let rem := secs mod 86400 in
  let '(y, m, d) := civil_from_days days in
  [y; m; d; rem / 3600; (rem mod 3600) / 60; rem mod 60;
   (days + 3) mod 7; days - days_from_civil y 1 1 + 1; 0].

Definition timegm (tm : struct_time) : Z :=
  let f := fun k => nth k tm 0 in
  days_from_civil (f 0%nat) (f 1%nat) (f 2%nat) * 86400
  + f 3%nat * 3600 + f 4%nat * 60 + f 5%nat.

Definition utc_clock : clock :=
  Clock 0 (fun secs => gmtime (Int_part secs)) (fun tm => IZR (timegm tm)).

End UtcHost.

(** A sky that ignores the place: the altitude at [ts] is [hc] plus
    [curve] of the hours since [t0]. *)
Definition sky_of (curve : R -> R) (t0 : R)
  : R -> R -> R -> res MoonPositionStruct :=
  fun ts _ _ => Ok (mkMoonPosition 0 (hc + curve ((ts - t0) / 3600)) 0 0).

(** The parabola with leading coefficient [alpha] and roots [P], [Q]. *)
Definition parabola (alpha P Q : R) : R -> R :=
  fun x => alpha * (x - P) * (x - Q).

(** Below the horizon between 00:30 and 01:30, above it otherwise. *)
Definition dip_sky : R -> R -> R -> R -> res MoonPositionStruct :=
  sky_of (parabola 1 (1 / 2) (3 / 2)).

(** Setting exactly at midnight and rising at 01:30. *)
Definition midnight_set_sky : R -> R -> R -> R -> res MoonPositionStruct :=
  sky_of (parabola 1 0 (3 / 2)).

(** Below the horizon all day. *)
Definition low_sky : R -> R -> R -> R -> res MoonPositionStruct :=
  sky_of (fun x => - 1 - x * x).

(** The same altitude at every instant. *)
Definition flat_sky : R -> R -> R -> R -> res MoonPositionStruct :=
  sky_of (fun _ => 1).

(** Above the horizon until 00:30, below it for the rest of the day: a
    set and no rise. *)
Definition setting_sky : R -> R -> R -> R -> res MoonPositionStruct :=
  sky_of (parabola (-1) (-100) (1 / 2)).

(** [dip_sky] with a wave added that vanishes on the hour: the same
    samples, another altitude in between. *)
Definition wiggly_dip_sky : R -> R -> R -> R -> res MoonPositionStruct :=
  sky_of (fun x => parabola 1 (1 / 2) (3 / 2) x + sin (x * PI)).

(** [hours] goes up in steps of two from [i]. *)
Fixpoint steps_of_two (i : Z) (hours : list Z) : Prop :=
  match hours with
  | [] => True
  | j :: rest => j = (i + 2)%Z /\ steps_of_two j rest
  end.

(** The hours of the scan after the first window. *)
Definition later_hours : list Z :=
  map (fun i => 2 * i + 1)%Z (map Z.of_nat (seq 1 11)).

(** The greatest ecliptic latitude of the moon in the series of
    [moon_coords]: [b = RAD * 5.128 * sin(F)]. *)
Definition moon_latitude_max : R := RAD * 5.128.

(** ** The same code in rounded arithmetic

    Two further readings of the float arithmetic of the program, for the
    statements that exact real arithmetic would not decide the way the
    program does.

    [Rounded] keeps the reals and passes every result of a float operation
    through a rounding operator [rnd], in the order in which Python
    evaluates the expression.  The constants [0.5], [J1970] and [DAYS_SEC]
    are binary64 numbers, so they are not rounded.  [binary64_rounding]
    below is what is assumed of [rnd]: the relative error of one operation
    is at most [2^-53], and [1e-300] covers a result in the subnormal
    range. *)

Module Rounded.

Section Ops.

Variable rnd : R -> R.

(** [date / DAYS_SEC - 0.5 + J1970]: a division, a subtraction, an
    addition. *)
Definition to_julian (date : R) : R :=
  rnd (rnd (rnd (date / DAYS_SEC) - 0.5) + J1970).

(** [(j + 0.5 - J1970) * DAYS_SEC], the seconds that [from_julian] hands
    to [time.localtime]. *)
Definition julian_seconds (j : R) : R :=
  rnd (rnd (rnd (j + 0.5) - J1970) * DAYS_SEC).

Definition from_julian (ck : clock) (j : R) : struct_time :=
  localtime ck (julian_seconds j).

End Ops.

End Rounded.

(** [F64] is the arithmetic of the program on binary64 numbers themselves:
    the primitive floats, whose [+], [-], [*], [/], [sqrt], [abs] and
    comparisons are those of IEEE 754 that Python's floats use.  It holds
    the functions that need nothing else: the Julian date conversions, the
    argument of [tan] in [astro_refraction], [hours_later], and the loop and
    the [return] of [get_moon_times], from [hc = 0.133 * RAD] on, with the
    altitude of [get_moon_position] and the midnight [t] passed in.  The
    trigonometric functions are not part of it. *)

Module F64.

Import PrimFloat.

Local Open Scope bool_scope.
Local Open Scope float_scope.

Inductive pynum : Type :=
| PyInt (n : Z)
| PyFloat (x : float).

(** [float(n)] for an [int] below [2^63] in magnitude. *)
Definition of_int (n : Z) : float :=
  if (n <? 0)%Z then - of_uint63 (Uint63.of_Z (- n))
  else of_uint63 (Uint63.of_Z n).

Definition py_float (v : pynum) : float :=
  match v with
  | PyInt n => of_int n
  | PyFloat x => x
  end.

(** [bool(v)]: [0], [0.0] and [-0.0] are false. *)
Definition truthy (v : pynum) : bool :=
  match v with
  | PyInt n => negb (n =? 0)%Z
  | PyFloat x => negb (x =? 0)
  end.

Definition py_div (x y : float) : res float :=
  if y =? 0 then Raise ZeroDivisionError else Ok (x / y).

Definition py_bitand (v w : pynum) : res pynum :=
  match v, w with
  | PyInt m, PyInt n => Ok (PyInt (Z.land m n))
  | _, _ => Raise TypeError
  end.

Definition py_gt0 (v : pynum) : bool := 0 <? py_float v.
Definition py_le0 (v : pynum) : bool := py_float v <=? 0.

(** [math.pi]. *)
Definition pi : float := 3.141592653589793.

Definition RAD : float := pi / 180.
Definition DAYS_SEC : float := 60 * 60 * 24.
Definition J1970 : float := 2440588.

Definition to_julian (date : float) : float :=
  date / DAYS_SEC - 0.5 + J1970.

(** The argument of [time.localtime] in [from_julian]. *)
Definition julian_seconds (j : float) : float :=
  (j + 0.5 - J1970) * DAYS_SEC.

(** The argument of [tan] in [astro_refraction], after the clamp. *)
Definition refraction_angle (h : float) : float :=
  let h := if h <? 0 then 0 else h in
  h + 0.00312536 / (h + 0.08901179).

Definition hours_later (date : float) (h : pynum) : float :=
  date + 60 * 60 * py_float h.

Record MoonTimesStruct : Type := mkMoonTimes {
  rise : pynum;
  set : pynum;
  alwaysup : bool;
  alwaysdown : bool
}.

Record scan_state : Type := mkScan {
  st_h0 : float;
  st_rise : pynum;
  st_set : pynum;
  st_ye : pynum
}.

Definition in_window (x : float) : nat :=
  if abs x <=? 1 then 1%nat else 0%nat.

Definition find_roots (a xe d : float) : res (nat * float * float) :=
  if 0 <=? d then
    dx <- py_div (sqrt d) (abs a * 2) ;;
    let x1 := xe - dx in
    let x2 := xe + dx in
    let roots := (in_window x1 + in_window x2)%nat in
    let x1 := if x1 <? -1 then x2 else x1 in
    Ok (roots, x1, x2)
  else Ok (0%nat, 0, 0).

Definition record_crossings (i : Z) (h0 ye : float) (roots : nat)
  (x1 x2 : float) (rise0 set0 : pynum) : pynum * pynum :=
  match roots with
  | 1%nat =>
      if h0 <? 0
      then (PyFloat (of_int i + x1), set0)
      else (rise0, PyFloat (of_int i + x1))
  | 2%nat =>
      (PyFloat (of_int i + (if ye <? 0 then x2 else x1)),
       PyFloat (of_int i + (if ye <? 0 then x1 else x2)))
  | _ => (rise0, set0)
  end.

Definition classify (i : Z) (h0 h1 h2 : float) (rise0 set0 : pynum)
  : res (pynum * pynum * float) :=
  let a := (h0 + h2) / 2 - h1 in
  let b := (h2 - h0) / 2 in
  xe <- py_div (- b) (2 * a) ;;
  let ye := (a * xe + b) * xe + h1 in
  let d := b * b - 4 * a * h1 in
  found <- find_roots a xe d ;;
  let '(roots, x1, x2) := found in
  let '(rise1, set1) := record_crossings i h0 ye roots x1 x2 rise0 set0 in
  Ok (rise1, set1, ye).

Definition scan_hours : list Z :=
  map (fun i => 2 * i + 1)%Z (map Z.of_nat (seq 0 12)).

Definition hc : float := 0.133 * RAD.

Section RiseSet.

(** [get_moon_position(ts, lat, lng).altitude] as a function of [ts]. *)
Variable altitude_at : float -> float.

Definition sample (t : float) (i : Z) : float :=
  altitude_at (hours_later t (PyInt i)) - hc.

Definition window (t : float) (i : Z) (st : scan_state)
  : res (scan_state * bool) :=
  let h1 := sample t i in
  let h2 := sample t (i + 1) in
  r <- classify i (st_h0 st) h1 h2 (st_rise st) (st_set st) ;;
  let '(rise1, set1, ye) := r in
  if truthy rise1 && truthy set1
  then Ok (mkScan (st_h0 st) rise1 set1 (PyFloat ye), true)
  else Ok (mkScan h2 rise1 set1 (PyFloat ye), false).

Fixpoint scan (t : float) (hours : list Z) (st : scan_state)
  : res scan_state :=
  match hours with
  | [] => Ok st
  | i :: rest =>
      r <- window t i st ;;
      let '(st1, brk) := r in
      if brk then Ok st1 else scan t rest st1
  end.

Definition scan_day (t : float) : res scan_state :=
  let h0 := altitude_at t - hc in
  scan t scan_hours (mkScan h0 (PyInt 0) (PyInt 0) (PyInt 0)).

Definition time_or_absent (t : float) (v : pynum) : pynum :=
  if truthy v then PyFloat (hours_later t v) else PyInt (-1).

Definition alwaysup_expr (st : scan_state) : res bool :=
  if negb (truthy (st_rise st))
  then v <- py_bitand (st_set st) (st_ye st) ;; Ok (negb (py_gt0 v))
  else Ok false.

Definition alwaysdown_expr (st : scan_state) : bool :=
  negb (truthy (st_rise st)) && negb (truthy (st_set st))
  && py_le0 (st_ye st).

Definition moon_times_of (t : float) (st : scan_state) : res MoonTimesStruct :=
  let r := time_or_absent t (st_rise st) in
  let s := time_or_absent t (st_set st) in
  up <- alwaysup_expr st ;;
  Ok (mkMoonTimes r s up (alwaysdown_expr st)).

(** [get_moon_times] from the midnight [t] on. *)
Definition get_moon_times_from (t : float) : res MoonTimesStruct :=
  st <- scan_day t ;;
  moon_times_of t st.

End RiseSet.

(** The altitude at [ts] is [hc] plus [curve] of the hours since [t0]. *)
Definition sky_of (curve : float -> float) (t0 : float) : float -> float :=
  fun ts => hc + curve ((ts - t0) / 3600).

(** A moon that is [2^-40] rad below the corrected horizon at midnight and
    climbs along [x * (x + 1) / 2]: it rises a few nanoseconds after
    midnight and does not set that day. *)
Definition grazing_sky : float -> float -> float :=
  sky_of (fun x => 0.5 * x * (x + 1) - 0x1p-40).

(** The same altitude at every instant. *)
Definition flat_sky : float -> float -> float :=
  sky_of (fun _ => 1).

End F64.

(** ** Predicates of the statements *)

(** An hour offset that [rise] or [set] may hold: still the initial [0], or
    a float between 0 and 24. *)
Definition offset_ok (v : pynum) : Prop :=
  v = PyInt 0 \/ exists x, v = PyFloat x /\ 0 <= x <= 24.

(** What every pass of the loop keeps true of the state. *)
Definition scan_inv (st : scan_state) : Prop :=
  offset_ok (st_rise st) /\ offset_ok (st_set st).

Definition ye_is_float (st : scan_state) : Prop :=
  exists y, st_ye st = PyFloat y.

(** A field of the result: the sentinel [-1], or a timestamp not before [t]
    and at most 24 hours later. *)
Definition absent_or_within_day (t : R) (v : pynum) : Prop :=
  v = PyInt (-1) \/ exists ts, v = PyFloat ts /\ t <= ts <= t + 60 * 60 * 24.

(** What is assumed of the rounding of one float operation. *)
Definition binary64_rounding (rnd : R -> R) : Prop :=
  forall x, Rabs (rnd x - x) <= Rabs x / 2 ^ 53 + 1e-300.

(** * Properties *)

(** ** The result monad and the Python operators *)

Lemma bind_ok_inv {A B : Type} (c : res A) (k : A -> res B) (b : B) :
  bind c k = Ok b -> exists a, c = Ok a /\ k a = Ok b.
Proof. destruct c as [a | e]; simpl; [eauto | discriminate]. Qed.

Lemma py_div_ok (x y : R) : y <> 0 -> py_div x y = Ok (x / y).
Proof.
  intros Hy. unfold py_div.
  destruct (Req_dec_T y 0); [contradiction | reflexivity].
Qed.

Lemma py_div_zero (x : R) : py_div x 0 = Raise ZeroDivisionError.
Proof.
  unfold py_div. destruct (Req_dec_T 0 0); [reflexivity | contradiction].
Qed.

Lemma truthy_float (x : R) : truthy (PyFloat x) = true <-> x <> 0.
Proof.
  simpl. destruct (Req_dec_T x 0); split; intros;
    try discriminate; try contradiction; auto.
Qed.

Lemma Rabs_le_1 (x : R) : Rabs x <= 1 <-> -1 <= x <= 1.
Proof.
  split; intros H.
  - unfold Rabs in H. destruct (Rcase_abs x); lra.
  - apply Rabs_le. lra.
Qed.

Lemma Rabs_mul_self (a : R) : Rabs a * Rabs a = a * a.
Proof. unfold Rabs. destruct (Rcase_abs a); ring. Qed.

Lemma PI_gt_3 : 3 < PI.
Proof. pose proof PI2_3_2. lra. Qed.

Lemma Int_part_IZR (z : Z) : Int_part (IZR z) = z.
Proof. symmetry. apply Int_part_spec. lra. Qed.

Lemma sin_cos_sq (x : R) : sin x * sin x + cos x * cos x = 1.
Proof. pose proof (sin2_cos2 x) as H. unfold Rsqr in H. exact H. Qed.

Lemma atan_nonneg (x : R) : 0 <= x -> 0 <= atan x.
Proof.
  intros [H | H].
  - left. rewrite <- atan_0. now apply atan_increasing.
  - subst. rewrite atan_0. lra.
Qed.

Lemma atan_nonpos (x : R) : x <= 0 -> atan x <= 0.
Proof.
  intros [H | H].
  - left. rewrite <- atan_0. now apply atan_increasing.
  - subst. rewrite atan_0. lra.
Qed.

(** A point of the upper half plane has its angle in [0, PI]. *)
Lemma atan2_upper_half (y x : R) : 0 <= y -> 0 <= atan2 y x <= PI.
Proof.
  intros Hy. pose proof PI_RGT_0 as Hpi. unfold atan2.
  destruct (Rlt_dec 0 x) as [Hx | Hx].
  - pose proof (atan_bound (y / x)).
    assert (0 <= atan (y / x)).
    { apply atan_nonneg. apply Rle_mult_inv_pos; assumption. }
    lra.
  - destruct (Rlt_dec x 0) as [Hx' | Hx'].
    + destruct (Rle_dec 0 y) as [_ | Hn]; [ | contradiction].
      pose proof (atan_bound (y / x)).
      assert (atan (y / x) <= 0).
      { apply atan_nonpos. unfold Rdiv. apply Rinv_lt_0_compat in Hx'. nra. }
      lra.
    + destruct (Rlt_dec 0 y); [lra|]. destruct (Rlt_dec y 0); lra.
Qed.

(** ** Julian dates *)

Lemma julian_seconds_of_to_julian (t : R) :
  (to_julian t + 0.5 - J1970) * DAYS_SEC = t.
Proof. unfold to_julian, J1970, DAYS_SEC. field. Qed.

Lemma to_julian_of_julian_seconds (j : R) :
  to_julian ((j + 0.5 - J1970) * DAYS_SEC) = j.
Proof. unfold to_julian, J1970, DAYS_SEC. field. Qed.

Lemma Rabs_le_between (x a : R) : Rabs x <= a -> - a <= x <= a.
Proof. intros H. unfold Rabs in H. destruct (Rcase_abs x); lra. Qed.

Lemma half_ulp_bound : / 2 ^ 53 <= 1.2e-16.
Proof.
  apply (Rmult_le_reg_r (2 ^ 53)); [apply pow_lt; lra|].
  rewrite Rinv_l by (apply pow_nonzero; lra). lra.
Qed.

(** The error of one rounded operation whose exact result is at most [B]
    in magnitude. *)
Lemma rounding_error (rnd : R -> R) (x B : R) :
  binary64_rounding rnd -> Rabs x <= B ->
  - (1.2e-16 * B + 1e-300) <= rnd x - x <= 1.2e-16 * B + 1e-300.
Proof.
  intros Hr Hx. pose proof (Hr x) as H. pose proof half_ulp_bound as Hu.
  pose proof (Rabs_pos x) as Hp.
  assert (Rabs x / 2 ^ 53 <= 1.2e-16 * B).
  { unfold Rdiv. assert (0 <= / 2 ^ 53).
    { left. apply Rinv_0_lt_compat, pow_lt. lra. }
    nra. }
  apply Rabs_le_between. lra.
Qed.

(** Six rounded operations lie between [t] and the seconds that reach
    [time.localtime]; the three that act on the Julian date, which is near
    2.4 million, lose about [3e-10] days each, that is some [2.5e-5]
    seconds. *)
Lemma julian_seconds_close (rnd : R -> R) (t : R) :
  binary64_rounding rnd -> Rabs t <= 1e10 ->
  Rabs (Rounded.julian_seconds rnd (Rounded.to_julian rnd t) - t) <= 1e-4.
Proof.
  intros Hr Ht. apply Rabs_le_between in Ht.
  unfold Rounded.julian_seconds, Rounded.to_julian, DAYS_SEC, J1970.
  set (x1 := t / (60 * 60 * 24)).
  assert (Hx1 : x1 * 86400 = t) by (unfold x1; field).
  pose proof (rounding_error rnd x1 115741 Hr
                ltac:(apply Rabs_le; lra)) as E1.
  set (y1 := rnd x1) in *.
  pose proof (rounding_error rnd (y1 - 0.5) 115742 Hr
                ltac:(apply Rabs_le; lra)) as E2.
  set (y2 := rnd (y1 - 0.5)) in *.
  pose proof (rounding_error rnd (y2 + 2440588) 2556331 Hr
                ltac:(apply Rabs_le; lra)) as E3.
  set (y3 := rnd (y2 + 2440588)) in *.
  pose proof (rounding_error rnd (y3 + 0.5) 2556332 Hr
                ltac:(apply Rabs_le; lra)) as E4.
  set (y4 := rnd (y3 + 0.5)) in *.
  pose proof (rounding_error rnd (y4 - 2440588) 115745 Hr
                ltac:(apply Rabs_le; lra)) as E5.
  set (y5 := rnd (y4 - 2440588)) in *.
  pose proof (rounding_error rnd (y5 * (60 * 60 * 24)) 10000400000 Hr
                ltac:(apply Rabs_le; lra)) as E6.
  apply Rabs_le. lra.
Qed.

Lemma to_julian_close (rnd : R -> R) (j : R) :
  binary64_rounding rnd -> Rabs j <= 1e7 ->
  Rabs (Rounded.to_julian rnd (Rounded.julian_seconds rnd j) - j) <= 1e-8.
Proof.
  intros Hr Hj. apply Rabs_le_between in Hj.
  unfold Rounded.julian_seconds, Rounded.to_julian, DAYS_SEC, J1970.
  pose proof (rounding_error rnd (j + 0.5) 10000001 Hr
                ltac:(apply Rabs_le; lra)) as E4.
  set (y4 := rnd (j + 0.5)) in *.
  pose proof (rounding_error rnd (y4 - 2440588) 12500000 Hr
                ltac:(apply Rabs_le; lra)) as E5.
  set (y5 := rnd (y4 - 2440588)) in *.
  pose proof (rounding_error rnd (y5 * (60 * 60 * 24)) 1090000000000 Hr
                ltac:(apply Rabs_le; lra)) as E6.
  set (y6 := rnd (y5 * (60 * 60 * 24))) in *.
  set (x1 := y6 / (60 * 60 * 24)).
  assert (Hx1 : x1 * 86400 = y6) by (unfold x1; field).
  pose proof (rounding_error rnd x1 12600000 Hr
                ltac:(apply Rabs_le; lra)) as E1.
  set (y1 := rnd x1) in *.
  pose proof (rounding_error rnd (y1 - 0.5) 12600000 Hr
                ltac:(apply Rabs_le; lra)) as E2.
  set (y2 := rnd (y1 - 0.5)) in *.
  pose proof (rounding_error rnd (y2 + 2440588) 10100000 Hr
                ltac:(apply Rabs_le; lra)) as E3.
  apply Rabs_le. lra.
Qed.

(** A rounding that errs by the full [2^-53] of the result, every time. *)
Lemma scaled_rounding : binary64_rounding (fun x => x + x / 2 ^ 53).
Proof.
  intros x. replace (x + x / 2 ^ 53 - x) with (x / 2 ^ 53) by ring.
  unfold Rdiv. rewrite Rabs_mult.
  rewrite (Rabs_right (/ 2 ^ 53)).
  - lra.
  - left. apply Rinv_0_lt_compat, pow_lt. lra.
Qed.

(** C4, as amended.  [from_julian] does not hand back seconds: it returns
    the local calendar time of the seconds [s] it computes.  With every
    float operation rounded, [s] is within [1e-4] of the [t] that
    [to_julian] started from, for [t] up to [1e10] in magnitude (the years
    1653 to 2286); it need not be [t].  The other way round, [to_julian] of
    the seconds computed from a Julian date [j] is within [1e-8] days of
    [j]. *)
Theorem from_julian_to_julian (rnd : R -> R) (ck : clock) (t j : R) :
  binary64_rounding rnd -> Rabs t <= 1e10 -> Rabs j <= 1e7 ->
  (exists s,
     Rounded.from_julian rnd ck (Rounded.to_julian rnd t) = localtime ck s /\
     s = Rounded.julian_seconds rnd (Rounded.to_julian rnd t) /\
     Rabs (s - t) <= 1e-4) /\
  Rabs (Rounded.to_julian rnd (Rounded.julian_seconds rnd j) - j) <= 1e-8.
Proof.
  intros Hr Ht Hj. split.
  - eexists. split; [reflexivity|]. split; [reflexivity|].
    now apply julian_seconds_close.
  - now apply to_julian_close.
Qed.

Lemma from_julian_to_julian_witness :
  binary64_rounding (fun x => x + x / 2 ^ 53) /\
  Rabs 1 <= 1e10 /\ Rabs 2440588 <= 1e7 /\
  exists s,
    Rounded.from_julian (fun x => x + x / 2 ^ 53) UtcHost.utc_clock
      (Rounded.to_julian (fun x => x + x / 2 ^ 53) 1)
    = localtime UtcHost.utc_clock s /\
    Rabs (s - 1) <= 1e-4.
Proof.
  assert (H1 : Rabs 1 <= 1e10) by (rewrite Rabs_R1; lra).
  assert (H2 : Rabs 2440588 <= 1e7) by (apply Rabs_le; lra).
  split; [exact scaled_rounding|]. split; [exact H1|]. split; [exact H2|].
  destruct (from_julian_to_julian (fun x => x + x / 2 ^ 53)
              UtcHost.utc_clock 1 2440588 scaled_rounding H1 H2)
    as [[s [Hs [_ Hclose]]] _].
  exists s. split; assumption.
Defined.

(** C4 as stated fails: on a UTC host [from_julian(to_julian(0))] is the
    calendar tuple of 1970-01-01 00:00:00 (a Thursday, day 1 of the year),
    and Python's [==] between that tuple and the number [0] is false. *)
Lemma from_julian_roundtrip_not_a_number :
  from_julian UtcHost.utc_clock (to_julian 0)
  = [1970; 1; 1; 0; 0; 0; 3; 1; 0]%Z /\
  py_eq (StructTime (from_julian UtcHost.utc_clock (to_julian 0)))
        (Num (PyFloat 0)) = false.
Proof.
  split; [ | reflexivity].
  unfold from_julian. rewrite julian_seconds_of_to_julian. simpl.
  rewrite Int_part_IZR. vm_compute. reflexivity.
Qed.

(** ** Refraction *)

Lemma refraction_formula_ok (h : R) :
  h + 0.08901179 <> 0 -> tan (refraction_angle h) <> 0 ->
  refraction_formula h = Ok (0.0002967 / tan (refraction_angle h)).
Proof.
  intros H1 H2. unfold refraction_formula. rewrite py_div_ok by assumption.
  simpl. fold (refraction_angle h). now rewrite py_div_ok.
Qed.

(** Without the guard the formula divides by zero at the altitude the
    comment in the source names. *)
Lemma refraction_formula_singular :
  refraction_formula (- 0.08901179) = Raise ZeroDivisionError.
Proof.
  unfold refraction_formula.
  replace (- 0.08901179 + 0.08901179) with 0 by lra.
  rewrite py_div_zero. reflexivity.
Qed.

Lemma clamp_altitude_nonneg (h : R) : 0 <= clamp_altitude h.
Proof. unfold clamp_altitude. destruct (Rlt_dec h 0); lra. Qed.

Lemma clamp_altitude_negative (h : R) : h < 0 -> clamp_altitude h = 0.
Proof. intros H. unfold clamp_altitude. destruct (Rlt_dec h 0); [reflexivity | lra]. Qed.

Lemma clamp_altitude_id (h : R) : 0 <= h -> clamp_altitude h = h.
Proof. intros H. unfold clamp_altitude. destruct (Rlt_dec h 0); [lra | reflexivity]. Qed.

Lemma astro_refraction_at_horizon :
  exists r, astro_refraction 0 = Ok r /\ 0 < r.
Proof.
  unfold astro_refraction. rewrite clamp_altitude_id by lra.
  assert (Ht : 0 < tan (refraction_angle 0)).
  { apply tan_gt_0; unfold refraction_angle; pose proof PI2_1; lra. }
  rewrite refraction_formula_ok; [ | lra | lra].
  eexists. split; [reflexivity|]. apply Rdiv_lt_0_compat; lra.
Qed.

(** C8.  A negative altitude is replaced by 0 before the formula runs, so
    [astro_refraction h] is [astro_refraction 0]; the divisor
    [h + 0.08901179] of the evaluated formula is then not zero, and the call
    returns a number. *)
Theorem astro_refraction_clamps_negative (h : R) :
  h < 0 ->
  astro_refraction h = astro_refraction 0 /\
  clamp_altitude h + 0.08901179 <> 0 /\
  exists r, astro_refraction h = Ok r.
Proof.
  intros Hh.
  assert (Heq : astro_refraction h = astro_refraction 0).
  { unfold astro_refraction.
    now rewrite (clamp_altitude_negative h Hh), (clamp_altitude_id 0) by lra. }
  split; [exact Heq|]. split.
  - pose proof (clamp_altitude_nonneg h). lra.
  - rewrite Heq. destruct astro_refraction_at_horizon as [r [Hr _]]. eauto.
Qed.

Lemma astro_refraction_clamps_negative_witness :
  astro_refraction (-1) = astro_refraction 0 /\
  clamp_altitude (-1) + 0.08901179 <> 0 /\
  exists r, astro_refraction (-1) = Ok r.
Proof. apply (astro_refraction_clamps_negative (-1)). lra. Defined.

Lemma refraction_angle_increasing (h1 h2 : R) :
  0 <= h1 < h2 -> refraction_angle h1 < refraction_angle h2.
Proof.
  intros [H0 H12]. unfold refraction_angle.
  assert (Hk1 : 0 < h1 + 0.08901179) by lra.
  assert (Hk2 : 0 < h2 + 0.08901179) by lra.
  assert (Hprod : 0.00312536 < (h1 + 0.08901179) * (h2 + 0.08901179)) by nra.
  apply Rlt_0_minus.
  replace (h2 + 0.00312536 / (h2 + 0.08901179)
           - (h1 + 0.00312536 / (h1 + 0.08901179)))
    with ((h2 - h1) * ((h1 + 0.08901179) * (h2 + 0.08901179) - 0.00312536)
          / ((h1 + 0.08901179) * (h2 + 0.08901179))) by (field; lra).
  apply Rdiv_lt_0_compat; nra.
Qed.

Lemma refraction_angle_bounds (h : R) :
  0 <= h -> h < refraction_angle h <= h + 0.0352.
Proof.
  intros H0. unfold refraction_angle.
  assert (Hk : 0 < h + 0.08901179) by lra.
  assert (0 < 0.00312536 / (h + 0.08901179)) by (apply Rdiv_lt_0_compat; lra).
  assert (0.00312536 / (h + 0.08901179) <= 0.0352).
  { apply (Rmult_le_reg_r (h + 0.08901179)); [lra|].
    unfold Rdiv. rewrite Rmult_assoc, Rinv_l by lra. lra. }
  lra.
Qed.

Lemma cos_nonzero_off_half_pi (x : R) :
  0 < x < PI -> x <> PI / 2 -> cos x <> 0.
Proof.
  intros [H0 H1] Hne.
  destruct (Rlt_dec x (PI / 2)) as [Hlt | Hge].
  - assert (0 < cos x) by (apply cos_gt_0; lra). lra.
  - assert (cos x < 0) by (apply cos_lt_0; lra). lra.
Qed.

Lemma tan_nonzero (x : R) : 0 < x < PI -> cos x <> 0 -> tan x <> 0.
Proof.
  intros H Hc. assert (0 < sin x) by (apply sin_gt_0; lra).
  unfold tan. intro Hz. apply Rmult_integral in Hz.
  destruct Hz as [Hz | Hz]; [lra|].
  apply Rinv_neq_0_compat in Hc. contradiction.
Qed.

(** [c / tan] is the cotangent scaled by [c]: strictly decreasing between 0
    and PI. *)
Lemma cot_decreasing (c x y : R) :
  0 < c -> 0 < x -> x < y -> y < PI -> cos x <> 0 -> cos y <> 0 ->
  c / tan y < c / tan x.
Proof.
  intros Hc Hx Hxy Hy Hcx Hcy.
  assert (Hsx : 0 < sin x) by (apply sin_gt_0; lra).
  assert (Hsy : 0 < sin y) by (apply sin_gt_0; lra).
  assert (Hd : 0 < sin (y - x)) by (apply sin_gt_0; lra).
  rewrite sin_minus in Hd.
  unfold tan.
  replace (c / (sin y / cos y)) with (c * cos y / sin y) by (field; lra).
  replace (c / (sin x / cos x)) with (c * cos x / sin x) by (field; lra).
  apply Rlt_0_minus.
  replace (c * cos x / sin x - c * cos y / sin y)
    with (c * (sin y * cos x - cos y * sin x) / (sin x * sin y))
    by (field; lra).
  apply Rdiv_lt_0_compat; nra.
Qed.

(** The cotangent falls at least as fast as its argument grows: its
    derivative is [- 1 / sin^2 <= -1]. *)
Lemma cot_lipschitz (x y : R) :
  0 < x -> x < y -> y < PI ->
  y - x <= cos x / sin x - cos y / sin y.
Proof.
  intros Hx Hxy Hy.
  destruct (MVT_cor2 (cos / sin)%F
              (fun c => (- sin c * sin c - cos c * cos c) / Rsqr (sin c))
              x y Hxy) as [c [Hc [Hc1 Hc2]]].
  { intros c [Hc1 Hc2].
    apply derivable_pt_lim_div.
    - apply derivable_pt_lim_cos.
    - apply derivable_pt_lim_sin.
    - assert (0 < sin c) by (apply sin_gt_0; lra). lra. }
  unfold div_fct in Hc.
  assert (Hs : 0 < sin c) by (apply sin_gt_0; lra).
  pose proof (sin_cos_sq c) as Hsc.
  pose proof (SIN_bound c) as Hb.
  assert (Hd : (- sin c * sin c - cos c * cos c) / Rsqr (sin c) <= -1).
  { unfold Rsqr.
    replace (- sin c * sin c - cos c * cos c) with (- 1) by lra.
    assert (Hss : 0 < sin c * sin c <= 1) by nra.
    apply (Rmult_le_reg_r (sin c * sin c)); [lra|].
    unfold Rdiv. rewrite Rmult_assoc, Rinv_l by lra. lra. }
  assert (Hyx : 0 < y - x) by lra.
  nra.
Qed.

(** The argument of [tan] grows at least 0.6055 times as fast as the
    altitude: [0.00312536 / 0.08901179^2] is below 0.3945. *)
Lemma refraction_angle_slope (h1 h2 : R) :
  0 <= h1 -> h1 <= h2 ->
  0.6055 * (h2 - h1) <= refraction_angle h2 - refraction_angle h1.
Proof.
  intros H0 H12. unfold refraction_angle.
  assert (Hk1 : 0 < h1 + 0.08901179) by lra.
  assert (Hk2 : 0 < h2 + 0.08901179) by lra.
  set (k1 := h1 + 0.08901179) in *. set (k2 := h2 + 0.08901179) in *.
  assert (Hk12 : k1 <= k2) by (unfold k1, k2; lra).
  assert (Hlow : 0.08901179 <= k1) by (unfold k1; lra).
  assert (Hprod : 0.08901179 * 0.08901179 <= k1 * k2) by nra.
  replace (h2 + 0.00312536 / k2 - (h1 + 0.00312536 / k1))
    with ((k2 - k1) * (k1 * k2 - 0.00312536) / (k1 * k2))
    by (unfold k1, k2; field; fold k1 k2; lra).
  replace (h2 - h1) with (k2 - k1) by (unfold k1, k2; lra).
  assert (Hp : 0 < k1 * k2) by nra.
  apply (Rmult_le_reg_r (k1 * k2)); [exact Hp|].
  replace ((k2 - k1) * (k1 * k2 - 0.00312536) / (k1 * k2) * (k1 * k2))
    with ((k2 - k1) * (k1 * k2 - 0.00312536)) by (field; lra).
  assert (0 <= k2 - k1) by lra.
  assert (0 <= (k2 - k1) * (k1 * k2 - 0.08901179 * 0.08901179))
    by (apply Rmult_le_pos; lra).
  nra.
Qed.

(** What the formula returns, when it returns. *)
Lemma refraction_formula_inv (h r : R) :
  0 <= h -> refraction_formula h = Ok r ->
  cos (refraction_angle h) <> 0 /\
  r = 0.0002967 * (cos (refraction_angle h) / sin (refraction_angle h)).
Proof.
  intros H0 H. unfold refraction_formula in H.
  rewrite py_div_ok in H by lra. simpl in H.
  fold (refraction_angle h) in H. unfold py_div in H.
  destruct (Req_dec_T (tan (refraction_angle h)) 0) as [Hz | Hnz];
    [discriminate|].
  injection H as <-.
  assert (Hc : cos (refraction_angle h) <> 0).
  { intro Hc. apply Hnz. unfold tan, Rdiv. rewrite Hc, Rinv_0. ring. }
  split; [exact Hc|].
  assert (Hs : sin (refraction_angle h) <> 0).
  { intro Hs. apply Hnz. unfold tan, Rdiv. rewrite Hs. ring. }
  unfold tan. field. split; assumption.
Qed.

(** C7, as amended.  As long as the argument of [tan] stays below [PI]
    (altitudes up to about 3.1406 rad, the whole range [0, PI/2] of an
    altitude included), the refraction falls by at least [1.79e-4] times
    the difference of the altitudes: for two altitudes at least [1e-9] rad
    apart the first result is the greater, by at least [1.79e-13].  The
    results are those of the two calls; the calls return unless the argument
    of [tan] is the real number [PI/2] itself. *)
Theorem astro_refraction_decreasing_below_pi (h1 h2 : R) :
  0 <= h1 -> h1 + 1e-9 <= h2 -> refraction_angle h2 <= PI - 1e-9 ->
  (forall r1 r2,
     astro_refraction h1 = Ok r1 -> astro_refraction h2 = Ok r2 ->
     1.79e-4 * (h2 - h1) <= r1 - r2 /\ r1 > r2) /\
  (cos (refraction_angle h1) <> 0 -> exists r1, astro_refraction h1 = Ok r1) /\
  (cos (refraction_angle h2) <> 0 -> exists r2, astro_refraction h2 = Ok r2).
Proof.
  intros H0 Hgap Htop.
  pose proof (refraction_angle_bounds h1 H0) as Hb1.
  pose proof (refraction_angle_bounds h2 ltac:(lra)) as Hb2.
  pose proof (refraction_angle_slope h1 h2 H0 ltac:(lra)) as Hsl.
  split; [ | split].
  - intros r1 r2 Hr1 Hr2. unfold astro_refraction in Hr1, Hr2.
    rewrite clamp_altitude_id in Hr1 by lra.
    rewrite clamp_altitude_id in Hr2 by lra.
    apply refraction_formula_inv in Hr1; [ | lra].
    apply refraction_formula_inv in Hr2; [ | lra].
    destruct Hr1 as [_ ->]. destruct Hr2 as [_ ->].
    pose proof (cot_lipschitz (refraction_angle h1) (refraction_angle h2)
                  ltac:(lra) ltac:(lra) ltac:(lra)) as Hcot.
    lra.
  - intros Hc. unfold astro_refraction. rewrite clamp_altitude_id by lra.
    rewrite refraction_formula_ok;
      [eauto | lra | apply tan_nonzero; [lra | assumption]].
  - intros Hc. unfold astro_refraction. rewrite clamp_altitude_id by lra.
    rewrite refraction_formula_ok;
      [eauto | lra | apply tan_nonzero; [lra | assumption]].
Qed.

Lemma astro_refraction_decreasing_witness :
  0 <= 0 /\ 0 + 1e-9 <= 1 /\ refraction_angle 1 <= PI - 1e-9 /\
  exists r1 r2,
    astro_refraction 0 = Ok r1 /\ astro_refraction 1 = Ok r2 /\
    1.79e-4 * (1 - 0) <= r1 - r2 /\ r1 > r2.
Proof.
  pose proof PI2_3_2 as Hpi.
  pose proof (refraction_angle_bounds 0 ltac:(lra)) as Hb0.
  pose proof (refraction_angle_bounds 1 ltac:(lra)) as Hb1.
  assert (Htop : refraction_angle 1 <= PI - 1e-9) by lra.
  destruct (astro_refraction_decreasing_below_pi 0 1
              ltac:(lra) ltac:(lra) Htop) as [Hdec [Hret0 Hret1]].
  destruct Hret0 as [r1 Hr1].
  { assert (0 < cos (refraction_angle 0)) by (apply cos_gt_0; lra). lra. }
  destruct Hret1 as [r2 Hr2].
  { assert (0 < cos (refraction_angle 1)) by (apply cos_gt_0; lra). lra. }
  split; [lra|]. split; [lra|]. split; [exact Htop|].
  exists r1, r2. split; [exact Hr1|]. split; [exact Hr2|].
  exact (Hdec r1 r2 Hr1 Hr2).
Defined.

(** C7 as stated fails.  Past the zenith the tangent changes sign twice:
    at 2 rad the refraction is negative and at 4 rad it is positive again,
    so it is not decreasing on all of [h >= 0]. *)
Lemma astro_refraction_rises_past_zenith :
  exists r1 r2,
    astro_refraction 2 = Ok r1 /\ astro_refraction 4 = Ok r2 /\
    0 <= 2 < 4 /\ r1 < 0 /\ 0 < r2 /\ ~ r1 > r2.
Proof.
  pose proof PI_gt_3 as Hpi. pose proof PI_4 as Hpi4.
  pose proof (refraction_angle_bounds 2 ltac:(lra)) as Hb2.
  pose proof (refraction_angle_bounds 4 ltac:(lra)) as Hb4.
  assert (Hs2 : 0 < sin (refraction_angle 2)) by (apply sin_gt_0; lra).
  assert (Hc2 : cos (refraction_angle 2) < 0) by (apply cos_lt_0; lra).
  assert (Hs4 : sin (refraction_angle 4) < 0) by (apply sin_lt_0; lra).
  assert (Hc4 : cos (refraction_angle 4) < 0) by (apply cos_lt_0; lra).
  assert (Ht2 : tan (refraction_angle 2) < 0).
  { unfold tan, Rdiv. apply Rinv_lt_0_compat in Hc2. nra. }
  assert (Ht4 : 0 < tan (refraction_angle 4)).
  { unfold tan, Rdiv. apply Rinv_lt_0_compat in Hc4. nra. }
  unfold astro_refraction. rewrite !clamp_altitude_id by lra.
  rewrite !refraction_formula_ok; try lra.
  do 2 eexists. split; [reflexivity|]. split; [reflexivity|]. split; [lra|].
  assert (0.0002967 / tan (refraction_angle 2) < 0).
  { unfold Rdiv. apply Rinv_lt_0_compat in Ht2. nra. }
  assert (0 < 0.0002967 / tan (refraction_angle 4))
    by (apply Rdiv_lt_0_compat; lra).
  repeat split; lra.
Qed.

(** ** Ephemerides and illumination *)

(** The scalar product of two unit vectors, written with the sines and
    cosines of their angles, lies in [-1, 1]: the arguments that
    [declination] and [get_moon_illumination] pass to [asin] and [acos]. *)
Lemma unit_dot_bound (s c u v w : R) :
  s * s + c * c = 1 -> u * u + v * v = 1 -> -1 <= w <= 1 ->
  Rabs (s * u + c * v * w) <= 1.
Proof.
  intros Hsc Huv Hw.
  assert (Hsq : (s * u + c * v * w) * (s * u + c * v * w) <= 1).
  { assert (H1 : (s * s + c * c) * (u * u + v * v * (w * w))
                 - (s * u + c * v * w) * (s * u + c * v * w)
                 = (s * v * w - c * u) * (s * v * w - c * u)) by ring.
    rewrite Hsc, Rmult_1_l in H1.
    pose proof (Rle_0_sqr (s * v * w - c * u)) as Hq. unfold Rsqr in Hq.
    assert (0 <= v * v * (1 - w * w)).
    { apply Rmult_le_pos; [apply (Rle_0_sqr v) | nra]. }
    lra. }
  apply Rabs_le. split; nra.
Qed.

Lemma declination_ok (l b : R) :
  declination l b = Ok (asin (sin b * cos E + cos b * sin E * sin l)).
Proof.
  unfold declination, py_asin.
  destruct (Rle_dec _ 1) as [_ | Hn]; [reflexivity | exfalso; apply Hn].
  apply unit_dot_bound.
  - apply sin_cos_sq.
  - rewrite Rplus_comm. apply sin_cos_sq.
  - apply SIN_bound.
Qed.

Lemma py_acos_unit_dot (x y z : R) :
  py_acos (sin x * sin y + cos x * cos y * cos z)
  = Ok (acos (sin x * sin y + cos x * cos y * cos z)).
Proof.
  unfold py_acos.
  destruct (Rle_dec _ 1) as [_ | Hn]; [reflexivity | exfalso; apply Hn].
  apply unit_dot_bound; try apply sin_cos_sq. apply COS_bound.
Qed.

Lemma sun_coords_ok (d : R) : exists s, sun_coords d = Ok s.
Proof. unfold sun_coords. rewrite declination_ok. simpl. eauto. Qed.

Lemma moon_coords_ok (d : R) : exists m, moon_coords d = Ok m.
Proof. unfold moon_coords. rewrite declination_ok. simpl. eauto. Qed.

(** C5.  For every [d], [moon_coords d] returns, and its distance lies
    between 356500 km and 406700 km. *)
Theorem moon_coords_dist_range (d : R) :
  exists c, moon_coords d = Ok c /\ 356500 <= dist c <= 406700.
Proof.
  unfold moon_coords. rewrite declination_ok. simpl.
  eexists. split; [reflexivity|]. simpl.
  pose proof (COS_bound (RAD * (134.963 + 13.064993 * d))). lra.
Qed.

Lemma angle_sign_cases (a : R) : angle_sign a = -1 \/ angle_sign a = 1.
Proof. unfold angle_sign. destruct (Rlt_dec a 0); auto. Qed.

Lemma phase_range (inc sgn : R) :
  0 <= inc <= PI -> sgn = -1 \/ sgn = 1 ->
  0 <= 0.5 + 0.5 * inc * sgn / PI <= 1.
Proof.
  intros Hinc Hs. pose proof PI_RGT_0 as Hpi.
  assert (Hq : 0 <= inc / PI <= 1).
  { split.
    - apply Rle_mult_inv_pos; lra.
    - apply (Rmult_le_reg_r PI); [lra|]. unfold Rdiv.
      rewrite Rmult_assoc, Rinv_l by lra. lra. }
  replace (0.5 * inc * sgn / PI) with (0.5 * sgn * (inc / PI)) by (field; lra).
  destruct Hs; subst sgn; lra.
Qed.

(** C9.  For every timestamp [get_moon_illumination] returns: the sun and
    moon coordinates of the same day count [to_days date] and the angle
    [phi] between them are defined, [angle] is the [atan2] of the source,
    [fraction] is [(1 + cos inc) / 2] and [phase] is
    [0.5 + 0.5 * inc * sign / PI] with [inc] computed from [phi] and the
    moon's distance and [sign] being -1 for a negative [angle] and 1
    otherwise; [fraction] and [phase] lie in [0, 1].  The sign is spelled
    out on the phase itself: a negative [angle] gives
    [0.5 - 0.5 * inc / PI], which is at most one half, and every other
    [angle], [0] included, gives [0.5 + 0.5 * inc / PI], which is at least
    one half. *)
Theorem get_moon_illumination_spec (date : R) :
  exists s m phi r,
    sun_coords (to_days date) = Ok s /\
    moon_coords (to_days date) = Ok m /\
    py_acos (sin (sun_dec s) * sin (dec m)
             + cos (sun_dec s) * cos (dec m) * cos (sun_ra s - ra m)) = Ok phi /\
    get_moon_illumination date = Ok r /\
    let inc := atan2 (sdist * sin phi) (dist m - sdist * cos phi) in
    angle r = atan2 (cos (sun_dec s) * sin (sun_ra s - ra m))
                    (sin (sun_dec s) * cos (dec m)
                     - cos (sun_dec s) * sin (dec m) * cos (sun_ra s - ra m)) /\
    fraction r = (1 + cos inc) / 2 /\
    phase r = 0.5 + 0.5 * inc * angle_sign (angle r) / PI /\
    0 <= fraction r <= 1 /\
    0 <= phase r <= 1 /\
    0 <= inc <= PI /\
    (angle r < 0 -> phase r = 0.5 - 0.5 * inc / PI /\ phase r <= 0.5) /\
    (0 <= angle r -> phase r = 0.5 + 0.5 * inc / PI /\ 0.5 <= phase r) /\
    (angle r = 0 -> phase r = 0.5 + 0.5 * inc / PI).
Proof.
  destruct (sun_coords_ok (to_days date)) as [s Hs].
  destruct (moon_coords_ok (to_days date)) as [m Hm].
  exists s, m. eexists. eexists.
  split; [exact Hs|]. split; [exact Hm|].
  split; [apply py_acos_unit_dot|].
  unfold get_moon_illumination. rewrite Hs, Hm. simpl.
  rewrite py_acos_unit_dot. simpl.
  split; [reflexivity|]. simpl.
  split; [reflexivity|]. split; [reflexivity|]. split; [reflexivity|].
  match goal with |- context [0.5 * ?i * angle_sign ?a / PI] =>
    set (inc := i); set (ang := a) end.
  assert (Hinc : 0 <= inc <= PI).
  { apply atan2_upper_half.
    apply Rmult_le_pos; [unfold sdist; lra|].
    match goal with |- 0 <= sin (acos ?x) => pose proof (acos_bound x) end.
    apply sin_ge_0; lra. }
  pose proof PI_RGT_0 as Hpi.
  assert (Hq : 0 <= 0.5 * inc / PI).
  { apply Rle_mult_inv_pos; lra. }
  split.
  { pose proof (COS_bound inc). lra. }
  split.
  { apply phase_range; [exact Hinc | apply angle_sign_cases]. }
  split; [exact Hinc|].
  split; [ | split].
  - intros Hneg. unfold angle_sign.
    destruct (Rlt_dec ang 0) as [_ | Hn]; [ | contradiction].
    replace (0.5 * inc * -1 / PI) with (- (0.5 * inc / PI)) by (field; lra).
    lra.
  - intros Hpos. unfold angle_sign.
    destruct (Rlt_dec ang 0) as [Hn | _]; [lra | ].
    replace (0.5 * inc * 1 / PI) with (0.5 * inc / PI) by (field; lra).
    lra.
  - intros Hz. unfold angle_sign.
    destruct (Rlt_dec ang 0) as [Hn | _]; [lra | ].
    replace (0.5 * inc * 1 / PI) with (0.5 * inc / PI) by (field; lra).
    reflexivity.
Qed.

(** ** One window of the solver *)

Lemma in_window_yes (x : R) : Rabs x <= 1 -> in_window x = 1%nat.
Proof.
  intros H. unfold in_window.
  destruct (Rle_dec (Rabs x) 1); [reflexivity | contradiction].
Qed.

Lemma in_window_no (x : R) : ~ Rabs x <= 1 -> in_window x = 0%nat.
Proof.
  intros H. unfold in_window.
  destruct (Rle_dec (Rabs x) 1); [contradiction | reflexivity].
Qed.

Lemma in_window_cases (x : R) :
  (in_window x = 1%nat /\ -1 <= x <= 1) \/
  (in_window x = 0%nat /\ (x < -1 \/ 1 < x)).
Proof.
  unfold in_window. destruct (Rle_dec (Rabs x) 1) as [H | H].
  - left. split; [reflexivity|]. apply Rabs_le_1 in H. lra.
  - right. split; [reflexivity|].
    destruct (Rlt_dec x (-1)); [now left|]. right.
    destruct (Rlt_dec 1 x); [assumption|].
    exfalso. apply H. apply Rabs_le_1. lra.
Qed.

Lemma fit_dx_nonneg (a d : R) : a <> 0 -> 0 <= fit_dx a d.
Proof.
  intros Ha. unfold fit_dx. apply Rle_mult_inv_pos; [apply sqrt_pos|].
  pose proof (Rabs_pos_lt a Ha). lra.
Qed.

Lemma fit_dx_of_roots (a d p q : R) :
  a <> 0 -> p <= q -> d = a * a * ((q - p) * (q - p)) ->
  fit_dx a d = (q - p) / 2.
Proof.
  intros Ha Hpq Hd. unfold fit_dx.
  pose proof (Rabs_pos_lt a Ha) as Hpos.
  rewrite (sqrt_lem_1 d (Rabs a * (q - p))).
  - field. lra.
  - rewrite Hd. apply Rmult_le_pos; apply Rle_0_sqr.
  - apply Rmult_le_pos; lra.
  - rewrite Hd, <- (Rabs_mul_self a). ring.
Qed.

Lemma find_roots_some (a xe d : R) :
  a <> 0 -> d >= 0 ->
  find_roots a xe d =
  Ok ((in_window (xe - fit_dx a d) + in_window (xe + fit_dx a d))%nat,
      (if Rlt_dec (xe - fit_dx a d) (-1)
       then xe + fit_dx a d else xe - fit_dx a d),
      xe + fit_dx a d).
Proof.
  intros Ha Hd. unfold find_roots.
  destruct (Rge_dec d 0); [ | contradiction].
  rewrite py_div_ok; [reflexivity|].
  pose proof (Rabs_pos_lt a Ha). lra.
Qed.

Lemma find_roots_none (a xe d : R) :
  d < 0 -> find_roots a xe d = Ok (0%nat, 0, 0).
Proof.
  intros Hd. unfold find_roots. destruct (Rge_dec d 0); [lra | reflexivity].
Qed.

(** What [find_roots] hands to the case analysis: at most two roots, and
    the roots that are read lie inside the window. *)
Lemma find_roots_inside (a xe d : R) (roots : nat) (x1 x2 : R) :
  a <> 0 -> find_roots a xe d = Ok (roots, x1, x2) ->
  (roots <= 2)%nat /\
  (roots = 1%nat -> -1 <= x1 <= 1) /\
  (roots = 2%nat -> -1 <= x1 <= 1 /\ -1 <= x2 <= 1).
Proof.
  intros Ha H. destruct (Rge_dec d 0) as [Hd | Hd].
  - rewrite find_roots_some in H by assumption.
    pose proof (fit_dx_nonneg a d Ha) as Hdx.
    injection H as Hr H1 H2. subst roots x1 x2.
    destruct (in_window_cases (xe - fit_dx a d)) as [[E1 B1] | [E1 B1]];
      destruct (in_window_cases (xe + fit_dx a d)) as [[E2 B2] | [E2 B2]];
      rewrite E1, E2; simpl;
      (split; [lia|]); (split; [intros Hn | intros Hn]; try discriminate);
      destruct (Rlt_dec (xe - fit_dx a d) (-1)); lra.
  - rewrite find_roots_none in H by lra. injection H as Hr H1 H2. subst.
    split; [lia|]. split; discriminate.
Qed.

Lemma classify_unfold (i : Z) (h0 h1 h2 : R) (r0 s0 : pynum) :
  fit_a h0 h1 h2 <> 0 ->
  classify i h0 h1 h2 r0 s0 =
  (let a := fit_a h0 h1 h2 in
   let b := fit_b h0 h2 in
   let xe := - b / (2 * a) in
   let ye := fit_ye a b xe h1 in
   found <- find_roots a xe (fit_d a b h1) ;;
   let '(roots, x1, x2) := found in
   let '(rise1, set1) := record_crossings i h0 ye roots x1 x2 r0 s0 in
   Ok (rise1, set1, ye)).
Proof.
  intros Ha. unfold classify. rewrite py_div_ok by lra. reflexivity.
Qed.

(** Three samples on a straight line: [xe = -b / (2 * a)] divides by
    zero. *)
Lemma classify_flat (i : Z) (h0 h1 h2 : R) (r0 s0 : pynum) :
  fit_a h0 h1 h2 = 0 -> classify i h0 h1 h2 r0 s0 = Raise ZeroDivisionError.
Proof.
  intros Ha. unfold classify. rewrite Ha, Rmult_0_r, py_div_zero. reflexivity.
Qed.

Lemma classify_runs (i : Z) (h0 h1 h2 : R) (r0 s0 : pynum) out :
  classify i h0 h1 h2 r0 s0 = Ok out -> fit_a h0 h1 h2 <> 0.
Proof.
  intros H Ha. rewrite classify_flat in H by assumption. discriminate.
Qed.

(** A negative discriminant: nothing is recorded. *)
Lemma classify_quiet (i : Z) (h0 h1 h2 : R) (r0 s0 : pynum) :
  fit_a h0 h1 h2 <> 0 ->
  fit_d (fit_a h0 h1 h2) (fit_b h0 h2) h1 < 0 ->
  classify i h0 h1 h2 r0 s0 =
  Ok (r0, s0, fit_ye (fit_a h0 h1 h2) (fit_b h0 h2)
                     (- fit_b h0 h2 / (2 * fit_a h0 h1 h2)) h1).
Proof.
  intros Ha Hd. rewrite classify_unfold by assumption. cbv zeta.
  rewrite find_roots_none by assumption. reflexivity.
Qed.

(** A window whose parabola has the real roots [p <= q]: the case analysis
    works on exactly these two. *)
Lemma classify_crossings (i : Z) (h0 h1 h2 : R) (r0 s0 : pynum) (p q : R) :
  fit_a h0 h1 h2 <> 0 -> p <= q ->
  fit_b h0 h2 = - fit_a h0 h1 h2 * (p + q) ->
  h1 = fit_a h0 h1 h2 * p * q ->
  classify i h0 h1 h2 r0 s0 =
  (let ye := - fit_a h0 h1 h2 * (q - p) * (q - p) / 4 in
   let '(r1, s1) :=
     record_crossings i h0 ye (in_window p + in_window q)
       (if Rlt_dec p (-1) then q else p) q r0 s0 in
   Ok (r1, s1, ye)).
Proof.
  intros Ha Hpq Hb Hh.
  rewrite classify_unfold by assumption. cbv zeta.
  set (a := fit_a h0 h1 h2) in *. set (b := fit_b h0 h2) in *.
  assert (Hd : fit_d a b h1 = a * a * ((q - p) * (q - p))).
  { unfold fit_d. rewrite Hb. rewrite Hh at 1. ring. }
  assert (Hxe : - b / (2 * a) = (p + q) / 2) by (rewrite Hb; field; assumption).
  assert (Hye : fit_ye a b (- b / (2 * a)) h1 = - a * (q - p) * (q - p) / 4).
  { unfold fit_ye. rewrite Hxe, Hb. rewrite Hh at 1. field. }
  rewrite find_roots_some; [ | assumption | ].
  2:{ rewrite Hd. apply Rle_ge. apply Rmult_le_pos; apply Rle_0_sqr. }
  rewrite Hye, (fit_dx_of_roots a _ p q Ha Hpq Hd), Hxe. simpl.
  replace ((p + q) / 2 - (q - p) / 2) with p by field.
  replace ((p + q) / 2 + (q - p) / 2) with q by field.
  reflexivity.
Qed.

(** X1.  The parabola [a x^2 + b x + h1] of a window goes through the
    three samples (-1, h0), (0, h1), (1, h2). *)
Theorem fit_interpolates (h0 h1 h2 : R) :
  let a := fit_a h0 h1 h2 in
  let b := fit_b h0 h2 in
  a * (-1) * (-1) + b * (-1) + h1 = h0 /\
  a * 0 * 0 + b * 0 + h1 = h1 /\
  a * 1 * 1 + b * 1 + h1 = h2.
Proof. unfold fit_a, fit_b. cbv zeta. repeat split; field. Qed.

(** X2.  With [a] not 0 and [d >= 0], the two values [xe - dx] and
    [xe + dx] are zeros of that parabola, and [ye] is its value at the
    vertex [xe]. *)
Theorem fit_roots_are_zeros (h0 h1 h2 : R) :
  let a := fit_a h0 h1 h2 in
  let b := fit_b h0 h2 in
  let xe := - b / (2 * a) in
  let d := fit_d a b h1 in
  let x1 := xe - fit_dx a d in
  let x2 := xe + fit_dx a d in
  a <> 0 -> d >= 0 ->
  a * x1 * x1 + b * x1 + h1 = 0 /\
  a * x2 * x2 + b * x2 + h1 = 0 /\
  fit_ye a b xe h1 = a * xe * xe + b * xe + h1.
Proof.
  intros a b xe d x1 x2 Ha Hd.
  assert (Hsq : fit_dx a d * fit_dx a d = d / (4 * (a * a))).
  { unfold fit_dx.
    replace (sqrt d / (Rabs a * 2) * (sqrt d / (Rabs a * 2)))
      with (sqrt d * sqrt d / (4 * (Rabs a * Rabs a)))
      by (field; apply Rabs_no_R0; assumption).
    rewrite sqrt_sqrt by lra. now rewrite Rabs_mul_self. }
  assert (Hzero : forall dx, dx * dx = d / (4 * (a * a)) ->
                             a * (xe + dx) * (xe + dx) + b * (xe + dx) + h1 = 0).
  { intros dx Hdx.
    replace (a * (xe + dx) * (xe + dx) + b * (xe + dx) + h1)
      with (a * (dx * dx) + (2 * a * xe + b) * dx + (a * xe * xe + b * xe + h1))
      by ring.
    rewrite Hdx. unfold xe, d, fit_d. field. assumption. }
  split; [ | split].
  - unfold x1. replace (xe - fit_dx a d) with (xe + - fit_dx a d) by ring.
    apply Hzero. rewrite <- Hsq. ring.
  - unfold x2. apply Hzero. exact Hsq.
  - unfold fit_ye. ring.
Qed.

Lemma fit_roots_are_zeros_witness :
  fit_a (3 / 4) (- (1 / 4)) (3 / 4) <> 0 /\
  fit_d (fit_a (3 / 4) (- (1 / 4)) (3 / 4)) (fit_b (3 / 4) (3 / 4))
        (- (1 / 4)) >= 0 /\
  (let a := fit_a (3 / 4) (- (1 / 4)) (3 / 4) in
   let b := fit_b (3 / 4) (3 / 4) in
   let xe := - b / (2 * a) in
   let d := fit_d a b (- (1 / 4)) in
   let x1 := xe - fit_dx a d in
   let x2 := xe + fit_dx a d in
   a * x1 * x1 + b * x1 + - (1 / 4) = 0 /\
   a * x2 * x2 + b * x2 + - (1 / 4) = 0 /\
   fit_ye a b xe (- (1 / 4)) = a * xe * xe + b * xe + - (1 / 4)).
Proof.
  assert (Ha : fit_a (3 / 4) (- (1 / 4)) (3 / 4) <> 0) by (unfold fit_a; lra).
  assert (Hd : fit_d (fit_a (3 / 4) (- (1 / 4)) (3 / 4)) (fit_b (3 / 4) (3 / 4))
                     (- (1 / 4)) >= 0)
    by (unfold fit_d, fit_a, fit_b; lra).
  split; [exact Ha|]. split; [exact Hd|].
  exact (fit_roots_are_zeros (3 / 4) (- (1 / 4)) (3 / 4) Ha Hd).
Defined.

(** C6.  A window that runs ([a] is not 0) with [d >= 0] has the roots
    [x1 = xe - dx <= x2 = xe + dx].  With exactly one of them of magnitude
    at most 1, that root is recorded as the rise when [h0 < 0] and as the
    set otherwise, the other variable keeping its value.  With both, the
    rise is the later root [x2] and the set the earlier root [x1] when
    [ye < 0], and the reverse when [ye >= 0].  With none, nothing is
    recorded. *)
Theorem window_case_analysis (i : Z) (h0 h1 h2 : R) (rise0 set0 : pynum) :
  let a := fit_a h0 h1 h2 in
  let b := fit_b h0 h2 in
  let xe := - b / (2 * a) in
  let ye := fit_ye a b xe h1 in
  let d := fit_d a b h1 in
  let x1 := xe - fit_dx a d in
  let x2 := xe + fit_dx a d in
  a <> 0 -> d >= 0 ->
  exists rise1 set1,
    classify i h0 h1 h2 rise0 set0 = Ok (rise1, set1, ye) /\
    x1 <= x2 /\
    (Rabs x1 <= 1 -> ~ Rabs x2 <= 1 ->
       (h0 < 0 -> rise1 = PyFloat (IZR i + x1) /\ set1 = set0) /\
       (h0 >= 0 -> rise1 = rise0 /\ set1 = PyFloat (IZR i + x1))) /\
    (~ Rabs x1 <= 1 -> Rabs x2 <= 1 ->
       (h0 < 0 -> rise1 = PyFloat (IZR i + x2) /\ set1 = set0) /\
       (h0 >= 0 -> rise1 = rise0 /\ set1 = PyFloat (IZR i + x2))) /\
    (Rabs x1 <= 1 -> Rabs x2 <= 1 ->
       (ye < 0 ->
        rise1 = PyFloat (IZR i + x2) /\ set1 = PyFloat (IZR i + x1)) /\
       (ye >= 0 ->
        rise1 = PyFloat (IZR i + x1) /\ set1 = PyFloat (IZR i + x2))) /\
    (~ Rabs x1 <= 1 -> ~ Rabs x2 <= 1 -> rise1 = rise0 /\ set1 = set0).
Proof.
  intros a b xe ye d x1 x2 Ha Hd.
  pose proof (fit_dx_nonneg a d Ha) as Hdx.
  rewrite classify_unfold by assumption. cbv zeta.
  fold a b xe ye d. rewrite find_roots_some by assumption. fold x1 x2. simpl.
  assert (Hle : x1 <= x2) by (unfold x1, x2; lra).
  destruct (Rle_dec (Rabs x1) 1) as [I1 | O1];
    destruct (Rle_dec (Rabs x2) 1) as [I2 | O2];
    [ rewrite (in_window_yes x1 I1), (in_window_yes x2 I2)
    | rewrite (in_window_yes x1 I1), (in_window_no x2 O2)
    | rewrite (in_window_no x1 O1), (in_window_yes x2 I2)
    | rewrite (in_window_no x1 O1), (in_window_no x2 O2) ];
    simpl.
  - (* both roots inside *)
    pose proof (proj1 (Rabs_le_1 _) I1) as B1.
    destruct (Rlt_dec x1 (-1)); [lra|].
    destruct (Rlt_dec ye 0); do 2 eexists; (split; [reflexivity|]);
      (split; [assumption|]);
      repeat split; intros; try contradiction; try (exfalso; lra);
      reflexivity.
  - (* only x1 inside *)
    pose proof (proj1 (Rabs_le_1 _) I1) as B1.
    destruct (Rlt_dec x1 (-1)); [lra|].
    destruct (Rlt_dec h0 0); do 2 eexists; (split; [reflexivity|]);
      (split; [assumption|]);
      repeat split; intros; try contradiction; try (exfalso; lra);
      reflexivity.
  - (* only x2 inside: x1 lies left of the window and is replaced *)
    pose proof (proj1 (Rabs_le_1 _) I2) as B2.
    assert (x1 < -1).
    { destruct (Rlt_dec x1 (-1)); [assumption|].
      exfalso. apply O1, Rabs_le_1. lra. }
    destruct (Rlt_dec x1 (-1)); [ | lra].
    destruct (Rlt_dec h0 0); do 2 eexists; (split; [reflexivity|]);
      (split; [assumption|]);
      repeat split; intros; try contradiction; try (exfalso; lra);
      reflexivity.
  - do 2 eexists. split; [reflexivity|]. split; [assumption|].
    repeat split; intros; try contradiction; reflexivity.
Qed.

Lemma window_case_analysis_witness :
  fit_a (3 / 4) (- (1 / 4)) (3 / 4) <> 0 /\
  fit_d (fit_a (3 / 4) (- (1 / 4)) (3 / 4)) (fit_b (3 / 4) (3 / 4))
        (- (1 / 4)) >= 0 /\
  exists rise1 set1 ye,
    classify 1 (3 / 4) (- (1 / 4)) (3 / 4) (PyInt 0) (PyInt 0)
    = Ok (rise1, set1, ye).
Proof.
  assert (Ha : fit_a (3 / 4) (- (1 / 4)) (3 / 4) <> 0) by (unfold fit_a; lra).
  assert (Hd : fit_d (fit_a (3 / 4) (- (1 / 4)) (3 / 4)) (fit_b (3 / 4) (3 / 4))
                     (- (1 / 4)) >= 0)
    by (unfold fit_d, fit_a, fit_b; lra).
  split; [exact Ha|]. split; [exact Hd|].
  destruct (window_case_analysis 1 (3 / 4) (- (1 / 4)) (3 / 4)
              (PyInt 0) (PyInt 0) Ha Hd) as [rise1 [set1 [H _]]].
  eauto.
Defined.

(** ** The scan of the day *)

Lemma offset_ok_float (x : R) : 0 <= x <= 24 -> offset_ok (PyFloat x).
Proof. intros H. right. eauto. Qed.

Lemma offset_ok_truthy (v : pynum) :
  offset_ok v -> truthy v = true -> exists x, v = PyFloat x /\ 0 < x <= 24.
Proof.
  intros [-> | [x [-> Hx]]] Ht.
  - discriminate.
  - apply truthy_float in Ht. exists x. split; [reflexivity | lra].
Qed.

Lemma record_crossings_offsets (i : Z) (h0 ye : R) (roots : nat) (x1 x2 : R)
  (r0 s0 r1 s1 : pynum) :
  (1 <= i <= 23)%Z ->
  (roots = 1%nat -> -1 <= x1 <= 1) ->
  (roots = 2%nat -> -1 <= x1 <= 1 /\ -1 <= x2 <= 1) ->
  offset_ok r0 -> offset_ok s0 ->
  record_crossings i h0 ye roots x1 x2 r0 s0 = (r1, s1) ->
  offset_ok r1 /\ offset_ok s1.
Proof.
  intros [Hi1 Hi2] H1 H2 Hr Hs H.
  apply IZR_le in Hi1, Hi2.
  unfold record_crossings in H.
  destruct roots as [ | [ | [ | n]]].
  - injection H as <- <-. auto.
  - specialize (H1 eq_refl).
    destruct (Rlt_dec h0 0); injection H as <- <-;
      (split; [ | ]); auto; apply offset_ok_float; lra.
  - destruct (H2 eq_refl) as [B1 B2].
    injection H as <- <-.
    destruct (Rlt_dec ye 0); split; apply offset_ok_float; lra.
  - injection H as <- <-. auto.
Qed.

Lemma classify_offsets (i : Z) (h0 h1 h2 : R) (r0 s0 r1 s1 : pynum) (ye : R) :
  (1 <= i <= 23)%Z -> offset_ok r0 -> offset_ok s0 ->
  classify i h0 h1 h2 r0 s0 = Ok (r1, s1, ye) ->
  offset_ok r1 /\ offset_ok s1.
Proof.
  intros Hi Hr Hs H.
  pose proof (classify_runs _ _ _ _ _ _ _ H) as Ha.
  rewrite classify_unfold in H by assumption. cbv zeta in H.
  apply bind_ok_inv in H. destruct H as [[[roots x1] x2] [Hf H]].
  apply find_roots_inside in Hf; [ | assumption].
  destruct Hf as [_ [H1 H2]].
  destruct (record_crossings i h0 _ roots x1 x2 r0 s0) as [r s] eqn:Hrec.
  injection H as <- <- _.
  exact (record_crossings_offsets i h0 _ roots x1 x2 r0 s0 r s
           Hi H1 H2 Hr Hs Hrec).
Qed.

Lemma scan_hours_range (i : Z) : In i scan_hours -> (1 <= i <= 23)%Z.
Proof.
  unfold scan_hours. simpl. intros H.
  repeat (destruct H as [<- | H]; [lia|]). contradiction.
Qed.

Lemma scan_hours_split : scan_hours = 1%Z :: later_hours.
Proof. reflexivity. Qed.

Lemma scan_hours_nonempty : scan_hours <> [].
Proof. discriminate. Qed.

Lemma steps_of_two_scan_hours : steps_of_two (-1) scan_hours.
Proof. simpl. repeat split. Qed.

Lemma steps_of_two_later_hours : steps_of_two 1 later_hours.
Proof. simpl. repeat split. Qed.

Section RiseSetFacts.

Variable position : R -> R -> R -> res MoonPositionStruct.
Variable ck : clock.

Lemma scan_cons (t lat lng : R) (i : Z) (rest : list Z) (st : scan_state) :
  scan position t lat lng (i :: rest) st =
  (r <- window position t lat lng i st ;;
   let '(st1, brk) := r in
   if brk then Ok st1 else scan position t lat lng rest st1).
Proof. reflexivity. Qed.

Lemma window_inv (t lat lng : R) (i : Z) (st st1 : scan_state) (brk : bool) :
  (1 <= i <= 23)%Z -> scan_inv st ->
  window position t lat lng i st = Ok (st1, brk) ->
  scan_inv st1 /\ ye_is_float st1.
Proof.
  intros Hi [Hr Hs] H. unfold window in H.
  apply bind_ok_inv in H. destruct H as [h1 [_ H]].
  apply bind_ok_inv in H. destruct H as [h2 [_ H]].
  apply bind_ok_inv in H. destruct H as [[[r1 s1] ye] [Hc H]].
  apply classify_offsets in Hc; try assumption.
  destruct (truthy r1 && truthy s1); injection H as <- _;
    (split; [exact Hc | eexists; reflexivity]).
Qed.

Lemma scan_inv_kept (t lat lng : R) (hours : list Z) :
  forall st st1,
    (forall i, In i hours -> (1 <= i <= 23)%Z) ->
    scan_inv st ->
    scan position t lat lng hours st = Ok st1 ->
    scan_inv st1 /\ (hours <> [] -> ye_is_float st1).
Proof.
  induction hours as [ | i rest IH]; intros st st1 Hrange Hinv H; simpl in H.
  - injection H as <-. split; [assumption | congruence].
  - apply bind_ok_inv in H. destruct H as [[st2 brk] [Hw H]].
    apply window_inv in Hw; [ | apply Hrange; now left | assumption].
    destruct Hw as [Hinv2 Hye2].
    destruct brk.
    + injection H as <-. split; [assumption | intros _; assumption].
    + destruct rest as [ | j rest'].
      * simpl in H. injection H as <-.
        split; [assumption | intros _; assumption].
      * apply IH in H; [ | intros k Hk; apply Hrange; now right | assumption].
        destruct H as [H1 H2]. split; [assumption|].
        intros _. apply H2. discriminate.
Qed.

(** At the [return], [rise] and [set] are 0 or an offset in [0, 24], and
    [ye] is a float. *)
Lemma scan_day_inv (t lat lng : R) (st : scan_state) :
  scan_day position t lat lng = Ok st -> scan_inv st /\ ye_is_float st.
Proof.
  intros H. unfold scan_day in H.
  apply bind_ok_inv in H. destruct H as [h0 [_ H]].
  apply scan_inv_kept in H.
  - destruct H as [H1 H2]. split; [assumption|]. apply H2. discriminate.
  - apply scan_hours_range.
  - split; left; reflexivity.
Qed.

(** The [return] with a falsy [rise]: [set & ye] is evaluated with a
    float [ye] and raises. *)
Lemma moon_times_of_absent_rise (t : R) (st : scan_state) :
  ye_is_float st -> truthy (st_rise st) = false ->
  moon_times_of t st = Raise TypeError.
Proof.
  intros [y Hy] Hr. unfold moon_times_of, alwaysup_expr.
  rewrite Hr, Hy. simpl. destruct (st_set st); reflexivity.
Qed.

(** The [return] with a truthy [rise]: both flags are [False]. *)
Lemma moon_times_of_present_rise (t : R) (st : scan_state) :
  truthy (st_rise st) = true ->
  moon_times_of t st =
  Ok (mkMoonTimes (PyFloat (hours_later t (st_rise st)))
                  (time_or_absent t (st_set st)) false false).
Proof.
  intros Hr.
  unfold moon_times_of, alwaysup_expr, alwaysdown_expr, time_or_absent.
  rewrite Hr. reflexivity.
Qed.

(** Every returning call went through a scan that ended with a truthy
    [rise]. *)
Lemma get_moon_times_returns (date lat lng : R) (inUTC : bool)
  (r : MoonTimesStruct) :
  get_moon_times position ck date lat lng inUTC = Ok r ->
  exists st,
    scan_day position (midnight ck date inUTC) lat lng = Ok st /\
    scan_inv st /\
    truthy (st_rise st) = true /\
    r = mkMoonTimes
          (PyFloat (hours_later (midnight ck date inUTC) (st_rise st)))
          (time_or_absent (midnight ck date inUTC) (st_set st))
          false false.
Proof.
  intros H. unfold get_moon_times in H. cbv zeta in H.
  apply bind_ok_inv in H. destruct H as [st [Hscan H]].
  destruct (scan_day_inv _ _ _ _ Hscan) as [Hinv Hye].
  exists st. split; [assumption|]. split; [assumption|].
  destruct (truthy (st_rise st)) eqn:Hr.
  - rewrite moon_times_of_present_rise in H by assumption.
    injection H as <-. auto.
  - rewrite moon_times_of_absent_rise in H by assumption. discriminate.
Qed.

Lemma get_moon_times_absent_rise (date lat lng : R) (inUTC : bool)
  (st : scan_state) :
  scan_day position (midnight ck date inUTC) lat lng = Ok st ->
  truthy (st_rise st) = false ->
  get_moon_times position ck date lat lng inUTC = Raise TypeError.
Proof.
  intros Hscan Hr. unfold get_moon_times. cbv zeta. rewrite Hscan. simpl.
  apply moon_times_of_absent_rise; [ | assumption].
  now apply scan_day_inv in Hscan.
Qed.

Lemma time_or_absent_within (t : R) (v : pynum) :
  offset_ok v -> absent_or_within_day t (time_or_absent t v).
Proof.
  intros Hv. unfold time_or_absent. destruct (truthy v) eqn:Ht.
  - destruct (offset_ok_truthy v Hv Ht) as [x [-> Hx]].
    right. eexists. split; [reflexivity|]. unfold hours_later. simpl. lra.
  - now left.
Qed.

Lemma time_or_absent_zero (t : R) (v : pynum) :
  py_float v = 0 -> time_or_absent t v = PyInt (-1).
Proof.
  intros Hz. unfold time_or_absent. destruct v as [n | x]; simpl in *.
  - apply eq_IZR_R0 in Hz. subst. reflexivity.
  - destruct (Req_dec_T x 0); [reflexivity | contradiction].
Qed.

End RiseSetFacts.

(** ** Running the solver on the skies *)

Lemma midnight_utc_2013_03_04 (inUTC : bool) :
  midnight UtcHost.utc_clock 1362355200 inUTC = 1362355200.
Proof.
  unfold midnight. simpl.
  replace (1362355200 + (if inUTC then 0 else 0)) with (IZR 1362355200)
    by (destruct inUTC; lra).
  rewrite Int_part_IZR.
  replace (UtcHost.timegm
             (slice_assign (UtcHost.gmtime 1362355200) 3 6 [0; 0; 0]%Z))
    with 1362355200%Z by (vm_compute; reflexivity).
  destruct inUTC; lra.
Qed.

(** 1362355200 is 2013-03-04 00:00:00 UTC, a Monday and day 63 of the
    year. *)
Example gmtime_2013_03_04 :
  UtcHost.gmtime 1362355200 = [2013; 3; 4; 0; 0; 0; 0; 63; 0]%Z.
Proof. vm_compute. reflexivity. Qed.

Lemma sample_sky (curve : R -> R) (t lat lng : R) (i : Z) :
  sample (sky_of curve t) t lat lng i = Ok (curve (IZR i)).
Proof.
  unfold sample, sky_of, hours_later. simpl. f_equal.
  replace ((t + 60 * 60 * IZR i - t) / 3600) with (IZR i) by field. ring.
Qed.

Lemma window_sky (curve : R -> R) (t lat lng : R) (i : Z) (st : scan_state) :
  window (sky_of curve t) t lat lng i st =
  (r <- classify i (st_h0 st) (curve (IZR i)) (curve (IZR i + 1))
                 (st_rise st) (st_set st) ;;
   let '(rise1, set1, ye) := r in
   if truthy rise1 && truthy set1
   then Ok (mkScan (st_h0 st) rise1 set1 (PyFloat ye), true)
   else Ok (mkScan (curve (IZR i + 1)) rise1 set1 (PyFloat ye), false)).
Proof.
  unfold window. rewrite !sample_sky. simpl. rewrite plus_IZR. reflexivity.
Qed.

Lemma scan_day_sky (curve : R -> R) (t lat lng : R) :
  scan_day (sky_of curve t) t lat lng =
  scan (sky_of curve t) t lat lng scan_hours
       (mkScan (curve (IZR (-1) + 1)) (PyInt 0) (PyInt 0) (PyInt 0)).
Proof.
  unfold scan_day, sky_of. simpl bind. cbv zeta. simpl pos_altitude.
  replace (IZR (-1) + 1) with ((t - t) / 3600) by (simpl; field).
  replace (hc + curve ((t - t) / 3600) - hc) with (curve ((t - t) / 3600))
    by ring.
  reflexivity.
Qed.

Section QuietScan.

Variable curve : R -> R.
Variables t lat lng : R.

(** No window of [curve] has a root: the three samples are never on a
    line and the discriminant is negative everywhere. *)
Hypothesis curve_bent : forall x,
  fit_a (curve (x - 1)) (curve x) (curve (x + 1)) <> 0.
Hypothesis curve_rootless : forall x,
  fit_d (fit_a (curve (x - 1)) (curve x) (curve (x + 1)))
        (fit_b (curve (x - 1)) (curve (x + 1))) (curve x) < 0.

Lemma scan_quiet (hours : list Z) : forall i0 r s y,
  steps_of_two i0 hours ->
  truthy r && truthy s = false ->
  exists h y',
    scan (sky_of curve t) t lat lng hours (mkScan (curve (IZR i0 + 1)) r s y)
    = Ok (mkScan h r s y') /\
    (hours <> [] -> exists v, y' = PyFloat v).
Proof.
  induction hours as [ | i rest IH]; intros i0 r s y Hsteps Hrs.
  - simpl. do 2 eexists. split; [reflexivity | congruence].
  - destruct Hsteps as [-> Hsteps]. rewrite scan_cons, window_sky.
    simpl st_h0. simpl st_rise. simpl st_set.
    replace (IZR i0 + 1) with (IZR (i0 + 2) - 1) by (rewrite plus_IZR; lra).
    rewrite classify_quiet by (apply curve_bent || apply curve_rootless).
    cbn -[scan]. rewrite Hrs.
    match goal with
    | |- context [mkScan _ r s (PyFloat ?ye)] =>
        destruct (IH (i0 + 2)%Z r s (PyFloat ye) Hsteps Hrs)
          as [h [y' [Hscan Hy']]]
    end.
    exists h, y'. split; [exact Hscan|]. intros _.
    destruct rest as [ | j rest'].
    + simpl in Hscan. injection Hscan as _ <-. eexists; reflexivity.
    + apply Hy'. discriminate.
Qed.

End QuietScan.

Section ParabolaScan.

Variables alpha P Q : R.
Variables t lat lng : R.
Hypothesis alpha_nonzero : alpha <> 0.
Hypothesis roots_ordered : P <= Q.

(** One window over a sky whose altitude is [parabola alpha P Q]: the
    roots the solver works with are [P] and [Q] seen from the middle of
    the window. *)
Lemma classify_parabola (i : Z) (r s : pynum) :
  classify i (parabola alpha P Q (IZR i - 1)) (parabola alpha P Q (IZR i))
           (parabola alpha P Q (IZR i + 1)) r s =
  (let ye := - alpha * (Q - P) * (Q - P) / 4 in
   let '(r1, s1) :=
     record_crossings i (parabola alpha P Q (IZR i - 1)) ye
       (in_window (P - IZR i) + in_window (Q - IZR i))
       (if Rlt_dec (P - IZR i) (-1) then Q - IZR i else P - IZR i)
       (Q - IZR i) r s in
   Ok (r1, s1, ye)).
Proof.
  assert (Ha : fit_a (parabola alpha P Q (IZR i - 1))
                     (parabola alpha P Q (IZR i))
                     (parabola alpha P Q (IZR i + 1)) = alpha)
    by (unfold fit_a, parabola; field).
  rewrite (classify_crossings i _ _ _ r s (P - IZR i) (Q - IZR i)).
  - rewrite Ha. cbv zeta.
    replace (Q - IZR i - (P - IZR i)) with (Q - P) by ring. reflexivity.
  - rewrite Ha. assumption.
  - lra.
  - rewrite Ha. unfold fit_b, parabola. field.
  - rewrite Ha. unfold parabola. ring.
Qed.

(** Windows that lie to the right of both roots change nothing. *)
Lemma scan_parabola_passed (hours : list Z) : forall i0 r s y,
  steps_of_two i0 hours ->
  Q < IZR i0 + 1 ->
  truthy r && truthy s = false ->
  exists h y',
    scan (sky_of (parabola alpha P Q) t) t lat lng hours
         (mkScan (parabola alpha P Q (IZR i0 + 1)) r s y)
    = Ok (mkScan h r s y').
Proof.
  induction hours as [ | i rest IH]; intros i0 r s y Hsteps HQ Hrs.
  - simpl. eauto.
  - destruct Hsteps as [-> Hsteps]. rewrite scan_cons, window_sky.
    simpl st_h0. simpl st_rise. simpl st_set.
    replace (IZR i0 + 1) with (IZR (i0 + 2) - 1) by (rewrite plus_IZR; lra).
    rewrite classify_parabola. cbv zeta.
    assert (HPi : P - IZR (i0 + 2) < -1) by (rewrite plus_IZR; lra).
    assert (HQi : Q - IZR (i0 + 2) < -1) by (rewrite plus_IZR; lra).
    rewrite (in_window_no (P - IZR (i0 + 2))),
            (in_window_no (Q - IZR (i0 + 2)));
      try (intros Hin; apply Rabs_le_1 in Hin; lra).
    cbn -[scan]. rewrite Hrs.
    apply IH; try assumption. rewrite plus_IZR. lra.
Qed.

End ParabolaScan.

(** The scan of [low_sky]: no crossing. *)
Lemma scan_day_low_sky (t lat lng : R) :
  exists h y,
    scan_day (low_sky t) t lat lng
    = Ok (mkScan h (PyInt 0) (PyInt 0) (PyFloat y)).
Proof.
  unfold low_sky. rewrite scan_day_sky.
  destruct (scan_quiet (fun x => - 1 - x * x) t lat lng) with
    (hours := scan_hours) (i0 := (-1)%Z) (r := PyInt 0) (s := PyInt 0)
    (y := PyInt 0) as [h [y' [Hscan Hy']]].
  - intros x. unfold fit_a. lra.
  - intros x. unfold fit_d, fit_a, fit_b. nra.
  - apply steps_of_two_scan_hours.
  - reflexivity.
  - destruct (Hy' scan_hours_nonempty) as [v ->]. eauto.
Qed.

(** The scan of [dip_sky]: set at 00:30, rise at 01:30, both found in the
    first window. *)
Lemma scan_day_dip_sky (t lat lng : R) :
  exists h y,
    scan_day (dip_sky t) t lat lng
    = Ok (mkScan h (PyFloat (3 / 2)) (PyFloat (1 / 2)) y).
Proof.
  unfold dip_sky. rewrite scan_day_sky.
  rewrite scan_hours_split, scan_cons, window_sky.
  simpl st_h0. simpl st_rise. simpl st_set.
  replace (IZR (-1) + 1) with (IZR 1 - 1) by lra.
  rewrite classify_parabola by lra. cbv zeta.
  rewrite (in_window_yes (1 / 2 - 1)), (in_window_yes (3 / 2 - 1))
    by (apply Rabs_le_1; lra).
  cbn -[scan].
  destruct (Rlt_dec (1 / 2 - 1) (-1)); [lra|].
  destruct (Rlt_dec (- (1) * (3 / 2 - 1 / 2) * (3 / 2 - 1 / 2) / 4) 0); [ | lra].
  replace (1 + (3 / 2 - 1)) with (3 / 2) by lra.
  replace (1 + (1 / 2 - 1)) with (1 / 2) by lra.
  destruct (Req_dec_T (3 / 2) 0); [lra|]. destruct (Req_dec_T (1 / 2) 0); [lra|].
  cbn -[scan]. eauto.
Qed.

(** The scan of [midnight_set_sky]: a rise offset of 1.5 hours and a set
    offset of 0.0, which is falsy, so the scan goes through all twelve
    windows. *)
Lemma scan_day_midnight_set_sky (t lat lng : R) :
  exists h y,
    scan_day (midnight_set_sky t) t lat lng
    = Ok (mkScan h (PyFloat (3 / 2)) (PyFloat 0) y).
Proof.
  unfold midnight_set_sky. rewrite scan_day_sky.
  rewrite scan_hours_split, scan_cons, window_sky.
  simpl st_h0. simpl st_rise. simpl st_set.
  replace (IZR (-1) + 1) with (IZR 1 - 1) by lra.
  rewrite classify_parabola by lra. cbv zeta.
  rewrite (in_window_yes (0 - 1)), (in_window_yes (3 / 2 - 1))
    by (apply Rabs_le_1; lra).
  cbn -[scan].
  destruct (Rlt_dec (0 - 1) (-1)); [lra|].
  destruct (Rlt_dec (- (1) * (3 / 2 - 0) * (3 / 2 - 0) / 4) 0); [ | lra].
  replace (1 + (3 / 2 - 1)) with (3 / 2) by lra.
  replace (1 + (0 - 1)) with 0 by lra.
  destruct (Req_dec_T (3 / 2) 0); [lra|]. destruct (Req_dec_T 0 0); [ | lra].
  cbn -[scan].
  apply scan_parabola_passed with (i0 := 1%Z); try lra.
  - apply steps_of_two_later_hours.
  - simpl. destruct (Req_dec_T (3 / 2) 0); [lra|].
    destruct (Req_dec_T 0 0); [ | lra]. reflexivity.
Qed.

Lemma get_moon_times_dip_sky (lat lng : R) (inUTC : bool) :
  get_moon_times (dip_sky 1362355200) UtcHost.utc_clock 1362355200 lat lng inUTC
  = Ok (mkMoonTimes (PyFloat 1362360600) (PyFloat 1362357000) false false).
Proof.
  unfold get_moon_times. cbv zeta. rewrite midnight_utc_2013_03_04.
  destruct (scan_day_dip_sky 1362355200 lat lng) as [h [y ->]]. simpl bind.
  rewrite moon_times_of_present_rise
    by (simpl; destruct (Req_dec_T (3 / 2) 0); [lra | reflexivity]).
  unfold time_or_absent, hours_later. simpl.
  destruct (Req_dec_T (1 / 2) 0); [lra|].
  do 2 f_equal; f_equal; lra.
Qed.

Lemma get_moon_times_midnight_set_sky (lat lng : R) (inUTC : bool) :
  get_moon_times (midnight_set_sky 1362355200) UtcHost.utc_clock
                 1362355200 lat lng inUTC
  = Ok (mkMoonTimes (PyFloat 1362360600) (PyInt (-1)) false false).
Proof.
  unfold get_moon_times. cbv zeta. rewrite midnight_utc_2013_03_04.
  destruct (scan_day_midnight_set_sky 1362355200 lat lng) as [h [y ->]].
  simpl bind.
  rewrite moon_times_of_present_rise
    by (simpl; destruct (Req_dec_T (3 / 2) 0); [lra | reflexivity]).
  unfold time_or_absent, hours_later. simpl.
  destruct (Req_dec_T 0 0); [ | lra].
  do 2 f_equal; f_equal; lra.
Qed.

(** ** The result of [get_moon_times] *)

(** C1.  A scan that finds no crossing leaves [rise] and [set] at the
    integer 0.  The [return] then evaluates [set & ye] with the float [ye]
    of the last window and raises [TypeError]: no record is returned, so
    neither flag reports the sign of [ye]. *)
Theorem no_crossing_raises_TypeError
  (position : R -> R -> R -> res MoonPositionStruct) (ck : clock)
  (date lat lng : R) (inUTC : bool) (st : scan_state) :
  scan_day position (midnight ck date inUTC) lat lng = Ok st ->
  st_rise st = PyInt 0 -> st_set st = PyInt 0 ->
  get_moon_times position ck date lat lng inUTC = Raise TypeError.
Proof.
  intros Hscan Hr Hs.
  apply (get_moon_times_absent_rise position ck date lat lng inUTC st Hscan).
  now rewrite Hr.
Qed.

Lemma no_crossing_raises_TypeError_witness :
  exists st,
    scan_day (low_sky 1362355200)
             (midnight UtcHost.utc_clock 1362355200 true) 85 0 = Ok st /\
    st_rise st = PyInt 0 /\ st_set st = PyInt 0 /\
    get_moon_times (low_sky 1362355200) UtcHost.utc_clock 1362355200 85 0 true
    = Raise TypeError.
Proof.
  destruct (scan_day_low_sky 1362355200 85 0) as [h [y Hscan]].
  rewrite <- (midnight_utc_2013_03_04 true) in Hscan at 2.
  eexists. split; [exact Hscan|]. split; [reflexivity|]. split; [reflexivity|].
  exact (no_crossing_raises_TypeError _ _ _ _ _ _ _ Hscan eq_refl eq_refl).
Defined.

(** C2 fails on the program.  On a day with the moon below the horizon
    throughout, the call raises [TypeError] at its [return]; on a day whose
    three samples of a window lie on a line, it raises [ZeroDivisionError]
    inside the loop. *)
Theorem get_moon_times_not_total :
  get_moon_times (low_sky 1362355200) UtcHost.utc_clock 1362355200 85 0 true
  = Raise TypeError /\
  get_moon_times (flat_sky 1362355200) UtcHost.utc_clock 1362355200 85 0 true
  = Raise ZeroDivisionError.
Proof.
  split.
  - unfold get_moon_times. cbv zeta. rewrite midnight_utc_2013_03_04.
    destruct (scan_day_low_sky 1362355200 85 0) as [h [y ->]]. reflexivity.
  - unfold get_moon_times. cbv zeta. rewrite midnight_utc_2013_03_04.
    unfold flat_sky. rewrite scan_day_sky, scan_hours_split, scan_cons, window_sky.
    simpl st_h0.
    rewrite classify_flat by (unfold fit_a; lra). reflexivity.
Qed.

(** C3.  Whenever [get_moon_times] returns, [alwaysup] and [alwaysdown] are
    not both true, and neither is true when [rise] or [set] holds a
    timestamp (is not the sentinel [-1]). *)
Theorem flags_exclusive_when_returning
  (position : R -> R -> R -> res MoonPositionStruct) (ck : clock)
  (date lat lng : R) (inUTC : bool) (r : MoonTimesStruct) :
  get_moon_times position ck date lat lng inUTC = Ok r ->
  ~ (alwaysup r = true /\ alwaysdown r = true) /\
  (rise r <> PyInt (-1) \/ set r <> PyInt (-1) ->
   alwaysup r = false /\ alwaysdown r = false).
Proof.
  intros H. apply get_moon_times_returns in H.
  destruct H as [st [_ [_ [_ ->]]]]. simpl. split.
  - intros [Hu _]. discriminate.
  - auto.
Qed.

Lemma flags_exclusive_witness :
  exists r,
    get_moon_times (dip_sky 1362355200) UtcHost.utc_clock
                   1362355200 50.5 30.5 true = Ok r /\
    rise r = PyFloat 1362360600 /\ set r = PyFloat 1362357000 /\
    ~ (alwaysup r = true /\ alwaysdown r = true) /\
    (rise r <> PyInt (-1) \/ set r <> PyInt (-1) ->
     alwaysup r = false /\ alwaysdown r = false).
Proof.
  eexists. split; [apply get_moon_times_dip_sky|].
  split; [reflexivity|]. split; [reflexivity|].
  exact (flags_exclusive_when_returning _ _ _ _ _ _ _
           (get_moon_times_dip_sky 50.5 30.5 true)).
Defined.

(** C10, as amended.  Whenever [get_moon_times] returns, with [t] the local
    midnight it computed: [rise] and [set] are each the sentinel [-1] or a
    timestamp [ts] with [t <= ts <= t + 24 h]; each is
    [hours_later(t, v) if v else -1] of the offset [v] the scan ended with,
    so an offset equal to 0 gives [-1]. *)
Theorem times_within_day
  (position : R -> R -> R -> res MoonPositionStruct) (ck : clock)
  (date lat lng : R) (inUTC : bool) (r : MoonTimesStruct) :
  get_moon_times position ck date lat lng inUTC = Ok r ->
  let t := midnight ck date inUTC in
  absent_or_within_day t (rise r) /\
  absent_or_within_day t (set r) /\
  exists st,
    scan_day position t lat lng = Ok st /\
    rise r = time_or_absent t (st_rise st) /\
    set r = time_or_absent t (st_set st) /\
    (forall v, py_float v = 0 -> time_or_absent t v = PyInt (-1)) /\
    (py_float (st_set st) = 0 -> set r = PyInt (-1)).
Proof.
  intros H t. apply get_moon_times_returns in H.
  destruct H as [st [Hscan [[Hr Hs] [Ht ->]]]]. fold t in Hscan |- *. simpl.
  assert (Hrise : time_or_absent t (st_rise st)
                  = PyFloat (hours_later t (st_rise st))).
  { unfold time_or_absent. now rewrite Ht. }
  rewrite <- Hrise.
  split; [now apply time_or_absent_within|].
  split; [now apply time_or_absent_within|].
  exists st. split; [assumption|]. split; [reflexivity|]. split; [reflexivity|].
  split; [intros v; apply time_or_absent_zero | apply time_or_absent_zero].
Qed.

Lemma times_within_day_witness :
  exists r,
    get_moon_times (midnight_set_sky 1362355200) UtcHost.utc_clock
                   1362355200 50.5 30.5 true = Ok r /\
    rise r = PyFloat 1362360600 /\ set r = PyInt (-1) /\
    absent_or_within_day (midnight UtcHost.utc_clock 1362355200 true) (rise r) /\
    absent_or_within_day (midnight UtcHost.utc_clock 1362355200 true) (set r).
Proof.
  eexists. split; [apply get_moon_times_midnight_set_sky|].
  split; [reflexivity|]. split; [reflexivity|].
  destruct (times_within_day _ _ _ _ _ _ _
              (get_moon_times_midnight_set_sky 50.5 30.5 true))
    as [Hrise [Hset _]].
  split; assumption.
Defined.

(** ** Runs in binary64 *)

Section Binary64Runs.

Import PrimFloat.

Local Open Scope float_scope.

(** C10 as stated fails.  On [grazing_sky] the first window has one root,
    about [2^-39] to the right of its left edge, with [h0 < 0]: the scan ends with
    the rise offset [1.8e-12] hours, which is truthy, and with no set.
    [hours_later] adds [3600 * 1.8e-12] seconds to the midnight
    [1362355200.0], less than half the distance [2^-22] to the next float,
    so the sum rounds to the midnight: the call returns a [rise] that is a
    timestamp, not the sentinel, and is equal to the midnight, not greater. *)
Lemma rise_equal_to_midnight :
  exists st r ts,
    F64.scan_day (F64.grazing_sky 1362355200) 1362355200 = Ok st /\
    F64.st_rise st = F64.PyFloat 1.818878381243394e-12 /\
    F64.truthy (F64.st_rise st) = true /\
    F64.st_set st = F64.PyInt 0 /\
    F64.get_moon_times_from (F64.grazing_sky 1362355200) 1362355200 = Ok r /\
    F64.rise r = F64.PyFloat ts /\
    ts = 1362355200 /\
    (1362355200 <? ts) = false /\
    F64.set r = F64.PyInt (-1).
Proof. do 3 eexists. vm_compute. repeat split; reflexivity. Qed.

(** The three samples of that first window and what [hours_later] makes of
    the offset. *)
Lemma grazing_sky_first_window :
  F64.sample (F64.grazing_sky 1362355200) 1362355200 0
  = -9.0949470177292824e-13 /\
  F64.sample (F64.grazing_sky 1362355200) 1362355200 1
  = 0.99999999999909039 /\
  F64.sample (F64.grazing_sky 1362355200) 1362355200 2
  = 2.9999999999990905 /\
  F64.hours_later 1362355200 (F64.PyFloat 1.818878381243394e-12)
  = 1362355200.
Proof. vm_compute. repeat split; reflexivity. Qed.

(** The seconds that [from_julian(to_julian(1))] hands to [time.localtime]
    are short of 1; those of [from_julian(to_julian(0))] are 0. *)
Lemma julian_seconds_of_one_second :
  F64.to_julian 1 = 2440587.5000115740 /\
  F64.julian_seconds (F64.to_julian 1) = 0.99999457597732544 /\
  (F64.julian_seconds (F64.to_julian 1) <? 1) = true /\
  F64.julian_seconds (F64.to_julian 0) = 0.
Proof. vm_compute. repeat split; reflexivity. Qed.

(** The altitudes [0.0] and [1e-300] give [tan] the same argument, so
    [astro_refraction] returns the same number for both. *)
Lemma refraction_angle_absorbs_tiny_altitude :
  (0 <? 1e-300) = true /\
  F64.refraction_angle 0 = 0.035111753173371757 /\
  F64.refraction_angle 1e-300 = 0.035111753173371757.
Proof. vm_compute. repeat split; reflexivity. Qed.

(** Under a sky of constant altitude the first window has [a = 0.0]. *)
Lemma flat_sky_divides_by_zero :
  F64.get_moon_times_from (F64.flat_sky 1362355200) 1362355200
  = Raise ZeroDivisionError.
Proof. vm_compute. reflexivity. Qed.

End Binary64Runs.

(** On a UTC host every instant of the first second of 1970 has the
    calendar time 00:00:00, and the instant [1] has 00:00:01. *)
Lemma utc_localtime_first_second (s : R) :
  0 <= s < 1 ->
  localtime UtcHost.utc_clock s = [1970; 1; 1; 0; 0; 0; 3; 1; 0]%Z /\
  localtime UtcHost.utc_clock 1 = [1970; 1; 1; 0; 0; 1; 3; 1; 0]%Z.
Proof.
  intros Hs. simpl.
  replace (Int_part s) with 0%Z by (apply Int_part_spec; simpl; lra).
  replace 1 with (IZR 1) by reflexivity. rewrite Int_part_IZR.
  split; vm_compute; reflexivity.
Qed.

(** ** The solver on the ephemeris

    The statements above hold for every position calculator, so they hold
    for [get_moon_position], the one the program drives. *)

Corollary get_moon_times_on_ephemeris
  (ck : clock) (date lat lng : R) (inUTC : bool) (r : MoonTimesStruct) :
  get_moon_times get_moon_position ck date lat lng inUTC = Ok r ->
  alwaysup r = false /\ alwaysdown r = false /\
  absent_or_within_day (midnight ck date inUTC) (rise r) /\
  absent_or_within_day (midnight ck date inUTC) (set r).
Proof.
  intros H. apply get_moon_times_returns in H.
  destruct H as [st [_ [[Hr Hs] [Ht ->]]]]. simpl.
  split; [reflexivity|]. split; [reflexivity|]. split.
  - right. destruct (offset_ok_truthy _ Hr Ht) as [x [-> Hx]].
    eexists. split; [reflexivity|]. unfold hours_later. simpl. lra.
  - now apply time_or_absent_within.
Qed.

Corollary get_moon_times_on_ephemeris_no_rise
  (ck : clock) (date lat lng : R) (inUTC : bool) (st : scan_state) :
  scan_day get_moon_position (midnight ck date inUTC) lat lng = Ok st ->
  truthy (st_rise st) = false ->
  get_moon_times get_moon_position ck date lat lng inUTC = Raise TypeError.
Proof. apply get_moon_times_absent_rise. Qed.

(** * More of the program *)

(** ** Sun times: [julian_cycle], [approx_transit], [solar_transit],
    [hour_angle] *)

Lemma py_round_near (x : R) : Rabs (IZR (py_round x) - x) <= 1 / 2.
Proof.
  unfold py_round. cbv zeta.
  destruct (base_Int_part x) as [Hlo Hhi].
  apply Rabs_le.
  destruct (Rlt_dec (x - IZR (Int_part x)) (1 / 2)) as [H1 | H1]; [lra|].
  destruct (Rlt_dec (1 / 2) (x - IZR (Int_part x))) as [H2 | H2].
  - rewrite plus_IZR. lra.
  - destruct (Z.even (Int_part x)); [lra | rewrite plus_IZR; lra].
Qed.

(** On a tie the even neighbour is taken: [round(0.5) = 0], [round(1.5) = 2]. *)
Lemma py_round_tie (n : Z) :
  py_round (IZR n + 1 / 2) = if Z.even n then n else (n + 1)%Z.
Proof.
  unfold py_round. cbv zeta.
  assert (Hn : Int_part (IZR n + 1 / 2) = n).
  { symmetry. apply Int_part_spec. lra. }
  rewrite Hn.
  destruct (Rlt_dec (IZR n + 1 / 2 - IZR n) (1 / 2)); [lra|].
  destruct (Rlt_dec (1 / 2) (IZR n + 1 / 2 - IZR n)); [lra|]. reflexivity.
Qed.

(** X3.  The transit that [approx_transit] computes for hour angle 0 from
    the cycle number [julian_cycle d lw] lies within half a day of [d]. *)
Theorem approx_transit_of_julian_cycle (d lw : R) :
  Rabs (approx_transit 0 lw (IZR (julian_cycle d lw)) - d) <= 1 / 2.
Proof.
  unfold approx_transit, julian_cycle.
  pose proof (py_round_near (d - J0 - lw / (2 * PI))) as H.
  replace (J0 + (0 + lw) / (2 * PI) + IZR (py_round (d - J0 - lw / (2 * PI))) - d)
    with (IZR (py_round (d - J0 - lw / (2 * PI))) - (d - J0 - lw / (2 * PI))).
  - exact H.
  - pose proof PI_RGT_0. field. lra.
Qed.

(** X4.  [hour_angle] inverts [altitude]: when [hour_angle h phi d] returns
    [H] for an altitude [h] between [-PI/2] and [PI/2], the body of
    declination [d] seen from latitude [phi] at hour angle [H] has altitude
    [h]; and [H] lies in [0, PI]. *)
Theorem hour_angle_altitude_roundtrip (h phi d H : R) :
  - (PI / 2) <= h <= PI / 2 ->
  hour_angle h phi d = Ok H ->
  altitude H phi d = Ok h /\ 0 <= H <= PI.
Proof.
  intros Hh Hha. unfold hour_angle in Hha.
  apply bind_ok_inv in Hha. destruct Hha as [q [Hq Hac]].
  unfold py_div in Hq. destruct (Req_dec_T (cos phi * cos d) 0) as [Hz | Hnz];
    [discriminate|]. injection Hq as <-.
  unfold py_acos in Hac.
  destruct (Rle_dec _ 1) as [Hle | Hgt]; [ | discriminate]. injection Hac as <-.
  apply Rabs_le_1 in Hle.
  split; [ | apply acos_bound].
  unfold altitude. rewrite cos_acos by assumption.
  replace (sin phi * sin d
           + cos phi * cos d * ((sin h - sin phi * sin d) / (cos phi * cos d)))
    with (sin h)
    by (field; split; intro Hc; apply Hnz; rewrite Hc; ring).
  unfold py_asin.
  destruct (Rle_dec (Rabs (sin h)) 1) as [_ | Hn].
  - now rewrite asin_sin.
  - exfalso. apply Hn, Rabs_le_1, SIN_bound.
Qed.

Lemma hour_angle_altitude_roundtrip_witness :
  hour_angle 0 0 0 = Ok (acos 0) /\
  altitude (acos 0) 0 0 = Ok 0 /\ 0 <= acos 0 <= PI.
Proof.
  assert (Hha : hour_angle 0 0 0 = Ok (acos 0)).
  { unfold hour_angle. rewrite sin_0, cos_0.
    rewrite py_div_ok by lra. simpl.
    replace ((0 - 0 * 0) / (1 * 1)) with 0 by field.
    unfold py_acos. destruct (Rle_dec (Rabs 0) 1) as [_ | Hn]; [reflexivity|].
    exfalso. apply Hn, Rabs_le_1. lra. }
  split; [exact Hha|].
  apply (hour_angle_altitude_roundtrip 0 0 0 (acos 0)); [ | exact Hha].
  pose proof PI_RGT_0. lra.
Defined.

(** X5.  When [hour_angle] raises [ValueError].  For an observer and a body
    off the poles ([cos phi * cos d > 0]) the body's altitude ranges over
    the angles whose sine lies between [- cos (phi + d)] and
    [cos (phi - d)].  When [sin h] is outside this range by [1e-12] or more
    the call raises [ValueError]; when it is inside by [1e-12] or more the
    call returns an angle in [0, PI]. *)
Theorem hour_angle_errors (h phi d : R) :
  0 < cos phi * cos d ->
  (cos (phi - d) + 1e-12 <= sin h \/ sin h <= - cos (phi + d) - 1e-12 ->
   hour_angle h phi d = Raise ValueError) /\
  (- cos (phi + d) + 1e-12 <= sin h <= cos (phi - d) - 1e-12 ->
   exists H, hour_angle h phi d = Ok H /\ 0 <= H <= PI).
Proof.
  intros Hpos. rewrite cos_minus, cos_plus.
  unfold hour_angle. rewrite py_div_ok by lra. simpl. unfold py_acos.
  set (q := (sin h - sin phi * sin d) / (cos phi * cos d)).
  assert (Hq : q * (cos phi * cos d) = sin h - sin phi * sin d)
    by (unfold q; field; split; intro Hc; rewrite Hc in Hpos; lra).
  split.
  - intros Hout.
    destruct (Rle_dec (Rabs q) 1) as [Hle | _]; [ | reflexivity].
    apply Rabs_le_1 in Hle. exfalso. destruct Hout; nra.
  - intros Hin.
    destruct (Rle_dec (Rabs q) 1) as [_ | Hn].
    + eexists. split; [reflexivity | apply acos_bound].
    + exfalso. apply Hn, Rabs_le_1. split; nra.
Qed.

Lemma hour_angle_errors_witness :
  0 < cos (PI / 3) * cos 0 /\
  cos (PI / 3 - 0) + 1e-12 <= sin (PI / 2) /\
  hour_angle (PI / 2) (PI / 3) 0 = Raise ValueError /\
  0 < cos 0 * cos 0 /\
  - cos (0 + 0) + 1e-12 <= sin 0 <= cos (0 - 0) - 1e-12 /\
  exists H, hour_angle 0 0 0 = Ok H /\ 0 <= H <= PI.
Proof.
  assert (Hpos : 0 < cos (PI / 3) * cos 0) by (rewrite cos_PI3, cos_0; lra).
  assert (Hout : cos (PI / 3 - 0) + 1e-12 <= sin (PI / 2)).
  { rewrite sin_PI2. replace (PI / 3 - 0) with (PI / 3) by ring.
    rewrite cos_PI3. lra. }
  assert (Hpos0 : 0 < cos 0 * cos 0) by (rewrite cos_0; lra).
  assert (Hin : - cos (0 + 0) + 1e-12 <= sin 0 <= cos (0 - 0) - 1e-12).
  { replace (0 + 0) with 0 by ring. replace (0 - 0) with 0 by ring.
    rewrite sin_0, cos_0. lra. }
  split; [exact Hpos|]. split; [exact Hout|]. split.
  - apply (proj1 (hour_angle_errors (PI / 2) (PI / 3) 0 Hpos)). now left.
  - split; [exact Hpos0|]. split; [exact Hin|].
    exact (proj2 (hour_angle_errors 0 0 0 Hpos0) Hin).
Defined.

(** X6.  The transit of [solar_transit] is within 0.0122 days (about 17.6
    minutes) of [J2000 + ds]. *)
Theorem solar_transit_near_mean (ds M L : R) :
  Rabs (solar_transit ds M L - (J2000 + ds)) <= 0.0122.
Proof.
  unfold solar_transit. pose proof (SIN_bound M). pose proof (SIN_bound (2 * L)).
  apply Rabs_le. lra.
Qed.

(** ** Ranges of the coordinates *)

Lemma atan2_range (y x : R) : - PI < atan2 y x <= PI.
Proof.
  pose proof PI_RGT_0 as Hpi. unfold atan2.
  pose proof (atan_bound (y / x)) as Hb.
  destruct (Rlt_dec 0 x) as [Hx | Hx]; [lra|].
  destruct (Rlt_dec x 0) as [Hx' | Hx'].
  - destruct (Rle_dec 0 y) as [Hy | Hy].
    + assert (atan (y / x) <= 0).
      { apply atan_nonpos. unfold Rdiv. apply Rinv_lt_0_compat in Hx'. nra. }
      lra.
    + assert (0 < atan (y / x)).
      { rewrite <- atan_0. apply atan_increasing.
        unfold Rdiv. apply Rinv_lt_0_compat in Hx'. nra. }
      lra.
  - destruct (Rlt_dec 0 y); [lra|]. destruct (Rlt_dec y 0); lra.
Qed.

Lemma asin_monotone (x y : R) :
  -1 <= x -> x <= y -> y <= 1 -> asin x <= asin y.
Proof.
  intros Hx Hxy Hy.
  pose proof (asin_bound x). pose proof (asin_bound y).
  apply sin_incr_0; try lra.
  rewrite !sin_asin; lra.
Qed.

(** [asin] of a value between [- sin a] and [sin a], for [a] in the first
    quadrant, lies between [- a] and [a]. *)
Lemma asin_within (a x : R) :
  0 <= a <= PI / 2 -> - sin a <= x <= sin a -> - a <= asin x <= a.
Proof.
  intros Ha Hx.
  pose proof (SIN_bound a) as Hs.
  split.
  - rewrite <- (asin_sin (- a)) by lra. rewrite sin_neg.
    apply asin_monotone; lra.
  - rewrite <- (asin_sin a) by lra.
    apply asin_monotone; lra.
Qed.

Lemma obliquity_range : 0 < E < PI / 2.
Proof. unfold E, RAD. pose proof PI_RGT_0. lra. Qed.

(** X7.  [sun_coords] returns for every [d]; the sun's declination never
    exceeds the obliquity [E] in either direction, and its right ascension
    lies in (-PI, PI]. *)
Theorem sun_coords_range (d : R) :
  exists s,
    sun_coords d = Ok s /\
    - E <= sun_dec s <= E /\
    - PI < sun_ra s <= PI.
Proof.
  unfold sun_coords. cbv zeta. rewrite declination_ok. simpl.
  eexists. split; [reflexivity|]. simpl. split; [ | apply atan2_range].
  pose proof obliquity_range as HE.
  rewrite sin_0, cos_0.
  assert (HsE : 0 < sin E) by (apply sin_gt_0; lra).
  match goal with
  | |- context [_ * sin E * sin ?L] => pose proof (SIN_bound L) as HL
  end.
  apply asin_within; [lra|]. split; nra.
Qed.

(** The declination of a point whose ecliptic latitude is at most
    [moon_latitude_max] in magnitude. *)
Lemma moon_declination_bound (l b : R) :
  Rabs b <= moon_latitude_max ->
  - (E + moon_latitude_max)
  <= asin (sin b * cos E + cos b * sin E * sin l)
  <= E + moon_latitude_max.
Proof.
  intros Hb.
  pose proof obliquity_range as HE. pose proof PI_RGT_0 as Hpi.
  assert (Hm : 0 < moon_latitude_max /\ E + moon_latitude_max <= PI / 2).
  { unfold moon_latitude_max, E, RAD. lra. }
  set (u := Rabs b) in *.
  assert (Hu : 0 <= u) by apply Rabs_pos.
  assert (Hcu : cos b = cos u).
  { unfold u, Rabs. destruct (Rcase_abs b); [now rewrite cos_neg | reflexivity]. }
  assert (Hsu : - sin u <= sin b <= sin u).
  { assert (0 <= sin u) by (apply sin_ge_0; lra).
    unfold u, Rabs in *.
    destruct (Rcase_abs b); [rewrite sin_neg in *; lra | lra]. }
  assert (Hcb : 0 <= cos u) by (apply cos_ge_0; lra).
  assert (HsE : 0 <= sin E) by (apply sin_ge_0; lra).
  assert (HcE : 0 <= cos E) by (apply cos_ge_0; lra).
  pose proof (SIN_bound l) as Hl.
  assert (Hsum : sin (E + u) <= sin (E + moon_latitude_max))
    by (apply sin_incr_1; lra).
  rewrite (sin_plus E u) in Hsum.
  assert (H1 : 0 <= (sin u - sin b) * cos E) by (apply Rmult_le_pos; lra).
  assert (H2 : 0 <= (sin u + sin b) * cos E) by (apply Rmult_le_pos; lra).
  assert (H3 : 0 <= cos u * sin E) by (apply Rmult_le_pos; lra).
  assert (H4 : 0 <= cos u * sin E * (1 - sin l)) by (apply Rmult_le_pos; lra).
  assert (H5 : 0 <= cos u * sin E * (1 + sin l)) by (apply Rmult_le_pos; lra).
  apply asin_within; [lra|].
  rewrite Hcu. split; lra.
Qed.

Lemma moon_coords_bounds (d : R) :
  exists c,
    moon_coords d = Ok c /\
    Rabs (dec c) <= E + moon_latitude_max /\
    - PI < ra c <= PI /\
    364096 <= dist c <= 405906.
Proof.
  unfold moon_coords. cbv zeta. rewrite declination_ok. simpl.
  eexists. split; [reflexivity|]. simpl.
  split; [ | split; [apply atan2_range | ]].
  - apply Rabs_le. apply moon_declination_bound.
    unfold moon_latitude_max.
    match goal with
    | |- Rabs (RAD * 5.128 * sin ?F) <= _ => pose proof (SIN_bound F) as HF
    end.
    assert (0 < RAD) by (unfold RAD; pose proof PI_RGT_0; lra).
    apply Rabs_le. split; nra.
  - pose proof (COS_bound (RAD * (134.963 + 13.064993 * d))). lra.
Qed.

(** X8.  [moon_coords] returns for every [d] with a declination of at most
    23.4397 + 5.128 degrees in magnitude, a right ascension in (-PI, PI]
    and a distance between 364096 km and 405906 km. *)
Theorem moon_coords_range (d : R) :
  exists c,
    moon_coords d = Ok c /\
    Rabs (dec c) <= RAD * (23.4397 + 5.128) /\
    - PI < ra c <= PI /\
    364096 <= dist c <= 405906.
Proof.
  destruct (moon_coords_bounds d) as [c [Hc [Hdec Hrest]]].
  exists c. split; [exact Hc|]. split; [ | exact Hrest].
  unfold E, moon_latitude_max in Hdec. lra.
Qed.

(** ** Refraction and position *)

Lemma altitude_ok (H phi d : R) :
  altitude H phi d = Ok (asin (sin phi * sin d + cos phi * cos d * cos H)).
Proof.
  unfold altitude, py_asin.
  destruct (Rle_dec _ 1) as [_ | Hn]; [reflexivity | exfalso; apply Hn].
  apply unit_dot_bound; try apply sin_cos_sq. apply COS_bound.
Qed.

Lemma refraction_below_zenith (h : R) :
  refraction_angle (clamp_altitude h) < PI / 2 ->
  exists r r0,
    astro_refraction h = Ok r /\ astro_refraction 0 = Ok r0 /\ 0 < r <= r0.
Proof.
  intros Hang.
  pose proof (clamp_altitude_nonneg h) as Hc.
  pose proof (refraction_angle_bounds _ Hc) as Hb.
  pose proof (refraction_angle_bounds 0 ltac:(lra)) as Hb0.
  pose proof PI_gt_3 as Hpi.
  assert (Ht : 0 < tan (refraction_angle (clamp_altitude h)))
    by (apply tan_gt_0; lra).
  assert (Ht0 : 0 < tan (refraction_angle 0)) by (apply tan_gt_0; lra).
  unfold astro_refraction. rewrite (clamp_altitude_id 0) by lra.
  rewrite !refraction_formula_ok by lra.
  do 2 eexists. split; [reflexivity|]. split; [reflexivity|].
  split; [apply Rdiv_lt_0_compat; lra|].
  destruct (Req_dec_T (clamp_altitude h) 0) as [-> | Hne]; [lra|].
  left. apply cot_decreasing; try lra.
  - apply refraction_angle_increasing. lra.
  - assert (0 < cos (refraction_angle 0)) by (apply cos_gt_0; lra). lra.
  - assert (0 < cos (refraction_angle (clamp_altitude h)))
      by (apply cos_gt_0; lra). lra.
Qed.

(** X9.  The refraction is greatest at the horizon.  For every altitude
    [h], negative or not, at which the argument of [tan] (taken at the
    clamped altitude) stays below [PI/2] (every [h] up to about 1.5689
    rad), [astro_refraction h] returns a positive number that is at most
    [astro_refraction 0]. *)
Theorem astro_refraction_greatest_at_horizon (h : R) :
  refraction_angle (clamp_altitude h) < PI / 2 ->
  exists r r0,
    astro_refraction h = Ok r /\ astro_refraction 0 = Ok r0 /\ 0 < r <= r0.
Proof. apply refraction_below_zenith. Qed.

Lemma astro_refraction_greatest_at_horizon_witness :
  refraction_angle (clamp_altitude 1) < PI / 2 /\
  exists r r0,
    astro_refraction 1 = Ok r /\ astro_refraction 0 = Ok r0 /\ 0 < r <= r0.
Proof.
  assert (H : refraction_angle (clamp_altitude 1) < PI / 2).
  { rewrite clamp_altitude_id by lra.
    pose proof (refraction_angle_bounds 1 ltac:(lra)). pose proof PI2_3_2. lra. }
  split; [exact H|]. exact (astro_refraction_greatest_at_horizon 1 H).
Defined.

Lemma get_moon_position_unfold (date lat lng : R) (c : MoonCoordsStruct) :
  moon_coords (to_days date) = Ok c ->
  get_moon_position date lat lng =
  (let H := sidereal_time (to_days date) (RAD * - lng) - ra c in
   let h := asin (sin (RAD * lat) * sin (dec c)
                  + cos (RAD * lat) * cos (dec c) * cos H) in
   r <- astro_refraction h ;;
   Ok (mkMoonPosition (azimuth H (RAD * lat) (dec c)) (h + r) (dist c)
         (atan2 (sin H) (tan (RAD * lat) * cos (dec c) - sin (dec c) * cos H)))).
Proof.
  intros Hc. unfold get_moon_position. cbv zeta. rewrite Hc. simpl bind.
  rewrite altitude_ok. reflexivity.
Qed.

Lemma north_pole_position (date lng : R) :
  exists c r,
    moon_coords (to_days date) = Ok c /\
    astro_refraction (dec c) = Ok r /\ 0 < r /\
    exists p,
      get_moon_position date 90 lng = Ok p /\
      pos_altitude p = dec c + r /\ distance p = dist c.
Proof.
  destruct (moon_coords_bounds (to_days date)) as [c [Hc [Hdec _]]].
  pose proof obliquity_range as HE. pose proof PI_RGT_0 as Hpi.
  pose proof PI_4 as Hpi4. pose proof PI2_3_2 as Hpi3.
  assert (Hm : E + moon_latitude_max <= 0.64).
  { unfold moon_latitude_max, E, RAD. lra. }
  assert (Hd : - 0.64 <= dec c <= 0.64).
  { unfold Rabs in Hdec. destruct (Rcase_abs (dec c)); lra. }
  assert (Hang : refraction_angle (clamp_altitude (dec c)) < PI / 2).
  { pose proof (clamp_altitude_nonneg (dec c)) as Hcl.
    pose proof (refraction_angle_bounds _ Hcl) as Hb.
    assert (clamp_altitude (dec c) <= 0.64)
      by (unfold clamp_altitude; destruct (Rlt_dec (dec c) 0); lra).
    lra. }
  destruct (refraction_below_zenith (dec c) Hang) as [r [r0 [Hr [_ Hpos]]]].
  exists c, r. split; [exact Hc|]. split; [exact Hr|]. split; [lra|].
  rewrite (get_moon_position_unfold date 90 lng c Hc). cbv zeta.
  replace (RAD * 90) with (PI / 2) by (unfold RAD; field).
  rewrite sin_PI2, cos_PI2.
  match goal with
  | |- context [asin ?x] => replace x with (sin (dec c)) by ring
  end.
  rewrite asin_sin by lra. rewrite Hr. simpl.
  eexists. repeat split; reflexivity.
Qed.

(** X10.  Whenever [get_moon_position] returns: its altitude is the raw
    altitude [h] (between [-PI/2] and [PI/2]) plus [astro_refraction h], its
    distance is the one of [moon_coords] and lies between 364096 km and
    405906 km, and its azimuth and parallactic angle lie in (-PI, PI]. *)
Theorem get_moon_position_result (date lat lng : R) (p : MoonPositionStruct) :
  get_moon_position date lat lng = Ok p ->
  exists c h r,
    moon_coords (to_days date) = Ok c /\
    altitude (sidereal_time (to_days date) (RAD * - lng) - ra c)
             (RAD * lat) (dec c) = Ok h /\
    - (PI / 2) <= h <= PI / 2 /\
    astro_refraction h = Ok r /\
    pos_altitude p = h + r /\
    distance p = dist c /\
    364096 <= distance p <= 405906 /\
    - PI < pos_azimuth p <= PI /\
    - PI < parallactic_angle p <= PI.
Proof.
  intros Hp.
  destruct (moon_coords_bounds (to_days date)) as [c [Hc [_ [_ Hd]]]].
  rewrite (get_moon_position_unfold date lat lng c Hc) in Hp. cbv zeta in Hp.
  apply bind_ok_inv in Hp. destruct Hp as [r [Hr Hp]]. injection Hp as <-.
  exists c. eexists. exists r.
  split; [exact Hc|]. split; [apply altitude_ok|].
  split; [apply asin_bound|]. split; [exact Hr|]. simpl.
  split; [reflexivity|]. split; [reflexivity|]. split; [exact Hd|].
  split; apply atan2_range.
Qed.

Lemma get_moon_position_result_witness :
  exists p c h r,
    get_moon_position 0 90 0 = Ok p /\
    moon_coords (to_days 0) = Ok c /\
    astro_refraction h = Ok r /\
    pos_altitude p = h + r /\
    364096 <= distance p <= 405906.
Proof.
  destruct (north_pole_position 0 0) as [c0 [r0 [_ [_ [_ [p [Hp _]]]]]]].
  destruct (get_moon_position_result 0 90 0 p Hp)
    as [c [h [r [Hc [_ [_ [Hr [Halt [_ [Hd _]]]]]]]]]].
  exists p, c, h, r. repeat split; assumption || apply Hd.
Defined.

(** X11.  At the North Pole ([lat = 90]) [get_moon_position] returns for
    every date and longitude, and the altitude it returns is the moon's
    declination plus the (positive) refraction at that declination. *)
Theorem get_moon_position_at_north_pole (date lng : R) :
  exists c r p,
    moon_coords (to_days date) = Ok c /\
    astro_refraction (dec c) = Ok r /\ 0 < r /\
    get_moon_position date 90 lng = Ok p /\
    pos_altitude p = dec c + r /\ distance p = dist c.
Proof.
  destruct (north_pole_position date lng)
    as [c [r [Hc [Hr [Hpos [p [Hp [Ha Hd]]]]]]]].
  exists c, r, p. repeat split; assumption.
Qed.

(** ** Illumination *)

Lemma cos_times_sign (inc a : R) : cos (inc * angle_sign a) = cos inc.
Proof.
  unfold angle_sign. destruct (Rlt_dec a 0).
  - replace (inc * -1) with (- inc) by ring. apply cos_neg.
  - now rewrite Rmult_1_r.
Qed.

(** X12.  The two outputs of [get_moon_illumination] agree with each
    other: [fraction = (1 - cos (2 * PI * phase)) / 2].  The angle lies in
    (-PI, PI]; a negative angle goes with a phase in [0, 1/2] and a
    non-negative one with a phase in [1/2, 1]. *)
Theorem illumination_fraction_of_phase (date : R) :
  exists r,
    get_moon_illumination date = Ok r /\
    fraction r = (1 - cos (2 * PI * phase r)) / 2 /\
    - PI < angle r <= PI /\
    ((angle r < 0 /\ 0 <= phase r <= 1 / 2) \/
     (0 <= angle r /\ 1 / 2 <= phase r <= 1)).
Proof.
  destruct (sun_coords_ok (to_days date)) as [s Hs].
  destruct (moon_coords_ok (to_days date)) as [m Hm].
  unfold get_moon_illumination. cbv zeta. rewrite Hs, Hm. simpl bind.
  rewrite py_acos_unit_dot. simpl bind.
  eexists. split; [reflexivity|]. simpl.
  set (phi := acos _).
  set (inc := atan2 (sdist * sin phi) (dist m - sdist * cos phi)).
  set (ang := atan2 _ _).
  pose proof PI_RGT_0 as Hpi.
  assert (Hinc : 0 <= inc <= PI).
  { apply atan2_upper_half. apply Rmult_le_pos; [unfold sdist; lra|].
    pose proof (acos_bound
      (sin (sun_dec s) * sin (dec m)
       + cos (sun_dec s) * cos (dec m) * cos (sun_ra s - ra m))) as Hphi.
    apply sin_ge_0; fold phi in Hphi; lra. }
  assert (Hq : 0 <= inc / PI <= 1).
  { split.
    - apply Rle_mult_inv_pos; lra.
    - apply (Rmult_le_reg_r PI); [lra|]. unfold Rdiv.
      rewrite Rmult_assoc, Rinv_l by lra. lra. }
  assert (Hang : - PI < ang <= PI) by apply atan2_range.
  clearbody inc ang. clear phi.
  split; [ | split; [exact Hang | ]].
  - replace 0.5 with (1 / 2) by lra.
    replace (2 * PI * (1 / 2 + 1 / 2 * inc * angle_sign ang / PI))
      with (inc * angle_sign ang + PI) by (field; lra).
    rewrite neg_cos, cos_times_sign. lra.
  - unfold angle_sign. destruct (Rlt_dec ang 0) as [Hneg | Hpos].
    + left. split; [exact Hneg|].
      replace (0.5 * inc * -1 / PI) with (- (0.5 * (inc / PI))) by (field; lra).
      lra.
    + right. split; [lra|].
      replace (0.5 * inc * 1 / PI) with (0.5 * (inc / PI)) by (field; lra).
      lra.
Qed.

(** ** More on [get_moon_times] *)

(** The scan of [setting_sky]: a set offset of 0.5 hours and no rise. *)
Lemma scan_day_setting_sky (t lat lng : R) :
  exists h y,
    scan_day (setting_sky t) t lat lng
    = Ok (mkScan h (PyInt 0) (PyFloat (1 / 2)) y).
Proof.
  unfold setting_sky. rewrite scan_day_sky.
  rewrite scan_hours_split, scan_cons, window_sky.
  simpl st_h0. simpl st_rise. simpl st_set.
  replace (IZR (-1) + 1) with (IZR 1 - 1) by lra.
  rewrite classify_parabola by lra. cbv zeta.
  rewrite (in_window_no (-100 - 1)), (in_window_yes (1 / 2 - 1));
    try (apply Rabs_le_1; lra);
    try (intros Hin; apply Rabs_le_1 in Hin; lra).
  cbn -[scan].
  destruct (Rlt_dec (-100 - 1) (-1)); [ | lra].
  destruct (Rlt_dec (parabola (-1) (-100) (1 / 2) (1 - 1)) 0) as [Hneg | _].
  { unfold parabola in Hneg. lra. }
  replace (1 + (1 / 2 - 1)) with (1 / 2) by lra.
  cbn -[scan].
  apply scan_parabola_passed with (i0 := 1%Z); try lra.
  - apply steps_of_two_later_hours.
  - reflexivity.
Qed.

(** X13.  [get_moon_times] returns exactly when its scan ends with a
    truthy [rise].  Then [rise] is a timestamp not before midnight and at
    most 24 hours later, never the sentinel, and both flags are [False].
    With a
    falsy [rise] (nothing found, only a set found, or a rise offset of 0.0)
    the call raises [TypeError]. *)
Theorem get_moon_times_returns_iff_rise
  (position : R -> R -> R -> res MoonPositionStruct) (ck : clock)
  (date lat lng : R) (inUTC : bool) (st : scan_state) :
  scan_day position (midnight ck date inUTC) lat lng = Ok st ->
  (truthy (st_rise st) = true ->
   exists ts,
     get_moon_times position ck date lat lng inUTC
     = Ok (mkMoonTimes (PyFloat ts)
             (time_or_absent (midnight ck date inUTC) (st_set st))
             false false) /\
     midnight ck date inUTC <= ts <= midnight ck date inUTC + 60 * 60 * 24) /\
  (truthy (st_rise st) = false ->
   get_moon_times position ck date lat lng inUTC = Raise TypeError).
Proof.
  intros Hscan. split.
  - intros Ht.
    destruct (scan_day_inv _ _ _ _ _ Hscan) as [[Hr _] _].
    destruct (offset_ok_truthy _ Hr Ht) as [x [Hx Hb]].
    exists (hours_later (midnight ck date inUTC) (st_rise st)). split.
    + unfold get_moon_times. cbv zeta. rewrite Hscan. simpl bind.
      now apply moon_times_of_present_rise.
    + rewrite Hx. unfold hours_later. simpl. lra.
  - intros Hf. now apply (get_moon_times_absent_rise position ck _ _ _ _ st).
Qed.

Lemma get_moon_times_returns_iff_rise_witness :
  exists st,
    scan_day (setting_sky 1362355200)
             (midnight UtcHost.utc_clock 1362355200 true) 50.5 30.5 = Ok st /\
    st_set st = PyFloat (1 / 2) /\
    truthy (st_rise st) = false /\
    get_moon_times (setting_sky 1362355200) UtcHost.utc_clock
                   1362355200 50.5 30.5 true = Raise TypeError.
Proof.
  destruct (scan_day_setting_sky 1362355200 50.5 30.5) as [h [y Hscan]].
  rewrite <- (midnight_utc_2013_03_04 true) in Hscan at 2.
  eexists. split; [exact Hscan|]. split; [reflexivity|]. split; [reflexivity|].
  exact (proj2 (get_moon_times_returns_iff_rise _ _ _ _ _ _ _ Hscan) eq_refl).
Defined.

(** X14.  When the altitudes sampled at midnight, one hour and two hours
    later are the same number, the first window has [a = 0]: it divides by
    [2 * a] and [get_moon_times] raises [ZeroDivisionError]. *)
Theorem get_moon_times_level_first_window
  (position : R -> R -> R -> res MoonPositionStruct) (ck : clock)
  (date lat lng : R) (inUTC : bool) (p0 p1 p2 : MoonPositionStruct) :
  let t := midnight ck date inUTC in
  position t lat lng = Ok p0 ->
  position (hours_later t (PyInt 1)) lat lng = Ok p1 ->
  position (hours_later t (PyInt 2)) lat lng = Ok p2 ->
  pos_altitude p0 = pos_altitude p1 -> pos_altitude p1 = pos_altitude p2 ->
  get_moon_times position ck date lat lng inUTC = Raise ZeroDivisionError.
Proof.
  intros t H0 H1 H2 H01 H12.
  unfold get_moon_times. cbv zeta. fold t.
  unfold scan_day. rewrite H0. cbn [bind]. cbv zeta.
  rewrite scan_hours_split, scan_cons.
  unfold window, sample. rewrite H1. cbn [bind].
  change (1 + 1)%Z with 2%Z. rewrite H2. cbn [bind].
  rewrite classify_flat; [reflexivity|].
  simpl st_h0. unfold fit_a. lra.
Qed.

Lemma get_moon_times_level_witness :
  get_moon_times (flat_sky 1362355200) UtcHost.utc_clock
                 1362355200 50.5 30.5 true
  = Raise ZeroDivisionError.
Proof.
  eapply (get_moon_times_level_first_window (flat_sky 1362355200)
            UtcHost.utc_clock 1362355200 50.5 30.5 true);
    reflexivity.
Defined.

Section SampledHours.

Variables pos1 pos2 : R -> R -> R -> res MoonPositionStruct.
Variables t lat lng : R.

(** The two calculators agree on the hour, from midnight to 24:00. *)
Hypothesis same_on_the_hour : forall k : Z,
  (0 <= k <= 24)%Z ->
  pos1 (hours_later t (PyInt k)) lat lng = pos2 (hours_later t (PyInt k)) lat lng.

Lemma sample_same (i : Z) :
  (0 <= i <= 24)%Z -> sample pos1 t lat lng i = sample pos2 t lat lng i.
Proof. intros Hi. unfold sample. now rewrite same_on_the_hour. Qed.

Lemma window_same (i : Z) (st : scan_state) :
  (1 <= i <= 23)%Z -> window pos1 t lat lng i st = window pos2 t lat lng i st.
Proof.
  intros Hi. unfold window. rewrite !sample_same by lia. reflexivity.
Qed.

Lemma scan_same (hours : list Z) : forall st,
  (forall i, In i hours -> (1 <= i <= 23)%Z) ->
  scan pos1 t lat lng hours st = scan pos2 t lat lng hours st.
Proof.
  induction hours as [ | i rest IH]; intros st Hrange; [reflexivity|].
  rewrite !scan_cons. rewrite window_same by (apply Hrange; now left).
  destruct (window pos2 t lat lng i st) as [[st1 brk] | e]; cbn [bind];
    [ | reflexivity].
  destruct brk; [reflexivity|]. apply IH. intros k Hk. apply Hrange. now right.
Qed.

Lemma scan_day_same : scan_day pos1 t lat lng = scan_day pos2 t lat lng.
Proof.
  unfold scan_day.
  assert (H0 : pos1 t lat lng = pos2 t lat lng).
  { pose proof (same_on_the_hour 0 ltac:(lia)) as H.
    unfold hours_later in H. simpl in H.
    replace (t + 60 * 60 * 0) with t in H by ring. exact H. }
  rewrite H0. destruct (pos2 t lat lng) as [p | e]; cbn [bind]; [ | reflexivity].
  apply scan_same, scan_hours_range.
Qed.

End SampledHours.

(** X15.  [get_moon_times] reads the position calculator only on the hour:
    two calculators that agree at midnight + k hours for k = 0, ..., 24
    give the same result, a returned record or a raised exception,
    whatever they do in between. *)
Theorem get_moon_times_reads_hourly_samples
  (pos1 pos2 : R -> R -> R -> res MoonPositionStruct) (ck : clock)
  (date lat lng : R) (inUTC : bool) :
  (forall k : Z, (0 <= k <= 24)%Z ->
     pos1 (hours_later (midnight ck date inUTC) (PyInt k)) lat lng
     = pos2 (hours_later (midnight ck date inUTC) (PyInt k)) lat lng) ->
  get_moon_times pos1 ck date lat lng inUTC
  = get_moon_times pos2 ck date lat lng inUTC.
Proof.
  intros H. unfold get_moon_times. cbv zeta.
  now rewrite (scan_day_same pos1 pos2 _ lat lng H).
Qed.

Lemma wiggly_same_on_the_hour (t lat lng : R) (k : Z) :
  wiggly_dip_sky t (hours_later t (PyInt k)) lat lng
  = dip_sky t (hours_later t (PyInt k)) lat lng.
Proof.
  unfold wiggly_dip_sky, dip_sky, sky_of, hours_later. simpl.
  replace ((t + 60 * 60 * IZR k - t) / 3600) with (IZR k) by field.
  rewrite (sin_eq_0_1 (IZR k * PI)) by (exists k; reflexivity).
  now rewrite Rplus_0_r.
Qed.

Lemma get_moon_times_reads_hourly_samples_witness :
  get_moon_times (wiggly_dip_sky 1362355200) UtcHost.utc_clock
                 1362355200 50.5 30.5 true
  = Ok (mkMoonTimes (PyFloat 1362360600) (PyFloat 1362357000) false false).
Proof.
  rewrite <- (get_moon_times_dip_sky 50.5 30.5 true).
  apply get_moon_times_reads_hourly_samples.
  intros k _. rewrite midnight_utc_2013_03_04. apply wiggly_same_on_the_hour.
Defined.
